(** * gomodbus: Modbus TCP slave — function handlers and frame dispatch

  A shallow embedding of [function.go] and [tcpserver.go].

  - Bytes are [Init.Byte.byte]; [uint16] and [int] values are [Z] with the
    wrap-around of every narrowing conversion written out.
  - A Go slice is the list of its elements.  A handler result
    [([]byte, error)] is a pair of options, [None] standing for [nil].
  - The register backend [*NodeRegister] is mutated through a pointer; the
    handlers run in a state monad over the backend state that also journals
    every backend call and can panic (a Go run-time fault).
  - The connection is a byte stream that ends with an error, together with
    the bytes written so far. *)

From Stdlib Require Import ZArith List Lia Bool.
From stdpp Require Import gmap list.
From coqutil Require Import Byte.
Import ListNotations.
Local Open Scope Z_scope.

(** ** Bytes and fixed-width integers *)

Abbreviation byte := Init.Byte.byte.

#[global] Instance byte_eq_dec : EqDecision byte := Byte.byte_eq_dec.
#[global] Instance byte_countable : Countable byte :=
inj_countable' byte.unsigned byte.of_Z byte.of_Z_unsigned.

(** Go's [len] as an [int]. *)
Definition len {A : Type} (s : list A) : Z := Z.of_nat (length s).

(** Conversions [uint16(x)] and [uint8(x)] / [byte(x)]. *)
Definition uint16 (z : Z) : Z := z mod 2 ^ 16.
Definition uint8 (z : Z) : byte := byte.of_Z z.

(** [encoding/binary]'s big-endian accessors.  [Uint16] faults on a slice
  shorter than two bytes. *)
Module BigEndian.
Definition Uint16 (b : list byte) : option Z :=
  match b with
  | b0 :: b1 :: _ => Some (Z.lor (byte.unsigned b1) (Z.shiftl (byte.unsigned b0) 8))
  | _ => None
  end.

Definition PutUint16 (v : Z) : list byte := [uint8 (Z.shiftr v 8); uint8 v].
End BigEndian.

(** ** Constants

  Modelled from the spec: the constant declarations of the package are not
  part of the two source files.  The quantity bounds are those of the
  handler table of the spec (section 4.4), the exception codes those of
  section 6, the header size and protocol identifier those of sections 4.2
  and 6, and the function codes are the ones the Modbus application
  protocol assigns to the ten functions the spec names. *)

Definition FuncReadMinSize : Z := 4.
Definition FuncWriteMinSize : Z := 4.
Definition FuncWriteMultiMinSize : Z := 5.
Definition FuncReadWriteMinSize : Z := 9.
Definition FuncMaskWriteMinSize : Z := 6.

Definition ReadBitsQuantityMin : Z := 1.
Definition ReadBitsQuantityMax : Z := 2000.
Definition WriteBitsQuantityMin : Z := 1.
Definition WriteBitsQuantityMax : Z := 1968.
Definition ReadRegQuantityMin : Z := 1.
Definition ReadRegQuantityMax : Z := 125.
Definition WriteRegQuantityMin : Z := 1.
Definition WriteRegQuantityMax : Z := 123.
Definition ReadWriteOnReadRegQuantityMin : Z := 1.
Definition ReadWriteOnReadRegQuantityMax : Z := 125.
Definition ReadWriteOnWriteRegQuantityMin : Z := 1.
Definition ReadWriteOnWriteRegQuantityMax : Z := 121.

Definition ExceptionCodeIllegalFunction : byte := Byte.x01.
Definition ExceptionCodeIllegalDataAddress : byte := Byte.x02.
Definition ExceptionCodeIllegalDataValue : byte := Byte.x03.
Definition ExceptionCodeServerDeviceFailure : byte := Byte.x04.

Definition FuncCodeReadCoils : byte := Byte.x01.
Definition FuncCodeReadDiscreteInputs : byte := Byte.x02.
Definition FuncCodeReadHoldingRegisters : byte := Byte.x03.
Definition FuncCodeReadInputRegisters : byte := Byte.x04.
Definition FuncCodeWriteSingleCoil : byte := Byte.x05.
Definition FuncCodeWriteSingleRegister : byte := Byte.x06.
Definition FuncCodeWriteMultipleCoils : byte := Byte.x0f.
Definition FuncCodeWriteMultipleRegisters : byte := Byte.x10.
Definition FuncCodeMaskWriteRegister : byte := Byte.x16.
Definition FuncCodeReadWriteMultipleRegisters : byte := Byte.x17.

Definition tcpProtocolIdentifier : Z := 0.
Definition tcpHeaderMbapSize : Z := 7.
Definition tcpAduMaxSize : Z := 260.

(** ** Errors

  A Go [error] value: either an [*ExceptionError] carrying its code, or an
  error of some other dynamic type. *)
Inductive error : Type :=
| ExceptionError (ExceptionCode : byte)
| OtherError.

(** What a [FunctionHandler] returns: [([]byte, error)]. *)
Definition Result : Type := option (list byte) * option error.

(** ** The register backend and its journal *)

Inductive Call : Type :=
| CallReadCoils (address quality : Z)
| CallReadDiscretes (address quality : Z)
| CallWriteCoils (address quality : Z) (value : list byte)
| CallReadHoldingsBytes (address quality : Z)
| CallReadInputsBytes (address quality : Z)
| CallWriteHoldingsBytes (address quality : Z) (value : list byte)
| CallMaskWriteHolding (ref andMask orMask : Z).

(** The methods of [*NodeRegister] the handlers consume, as transitions of
  the backend state [R].  The type itself lives outside the two source
  files, so it stays abstract. *)
Class NodeRegister (R : Type) : Type := {
nodeReadCoils : Z → Z → R → list byte * option error * R;
nodeReadDiscretes : Z → Z → R → list byte * option error * R;
nodeWriteCoils : Z → Z → list byte → R → option error * R;
nodeReadHoldingsBytes : Z → Z → R → list byte * option error * R;
nodeReadInputsBytes : Z → Z → R → list byte * option error * R;
nodeWriteHoldingsBytes : Z → Z → list byte → R → option error * R;
nodeMaskWriteHolding : Z → Z → Z → R → option error * R
}.

Section Function.
Context {R : Type} {NR : NodeRegister R}.

(** A computation over the backend: the value ([None] after a panic), the
    backend state reached and the backend calls made, in order. *)
Definition M (A : Type) : Type := R → option A * R * list Call.

Definition ret {A : Type} (a : A) : M A := fun r => (Some a, r, []).

Definition panic {A : Type} : M A := fun r => (None, r, []).

Definition bind {A B : Type} (m : M A) (k : A → M B) : M B :=
  fun r =>
    match m r with
    | (Some a, r1, l1) => let '(b, r2, l2) := k a r1 in (b, r2, l1 ++ l2)
    | (None, r1, l1) => (None, r1, l1)
    end.

Definition must {A : Type} (o : option A) : M A :=
  match o with
  | Some a => ret a
  | None => panic
  end.

Definition call {A : Type} (c : Call) (f : R → A * R) : M A :=
  fun r => let '(a, r1) := f r in (Some a, r1, [c]).
End Function.

Arguments M R A : clear implicits.

Notation "x <- m ;; k" := (bind m (fun x => k))
(at level 20, m at level 99, k at level 200, only parsing).

Section Handlers.
Context {R : Type} {NR : NodeRegister R}.

Definition ReadCoils (address quality : Z) : M R (list byte * option error) :=
  call (CallReadCoils address quality) (nodeReadCoils address quality).
Definition ReadDiscretes (address quality : Z) : M R (list byte * option error) :=
  call (CallReadDiscretes address quality) (nodeReadDiscretes address quality).
Definition WriteCoils (address quality : Z) (value : list byte) : M R (option error) :=
  call (CallWriteCoils address quality value) (nodeWriteCoils address quality value).
Definition ReadHoldingsBytes (address quality : Z) : M R (list byte * option error) :=
  call (CallReadHoldingsBytes address quality) (nodeReadHoldingsBytes address quality).
Definition ReadInputsBytes (address quality : Z) : M R (list byte * option error) :=
  call (CallReadInputsBytes address quality) (nodeReadInputsBytes address quality).
Definition WriteHoldingsBytes (address quality : Z) (value : list byte) : M R (option error) :=
  call (CallWriteHoldingsBytes address quality value)
       (nodeWriteHoldingsBytes address quality value).
Definition MaskWriteHolding (ref andMask orMask : Z) : M R (option error) :=
  call (CallMaskWriteHolding ref andMask orMask) (nodeMaskWriteHolding ref andMask orMask).

(** [FunctionHandler]: [func(reg *NodeRegister, data []byte) ([]byte, error)];
    the register is the state of the monad. *)
Definition FunctionHandler : Type := list byte → M R Result.

Definition illegalDataValue : M R Result :=
  ret (None, Some (ExceptionError ExceptionCodeIllegalDataValue)).

Definition readBits (data : list byte) (isCoil : bool) : M R Result :=
  if negb (len data =? FuncReadMinSize) then illegalDataValue
  else
    address <- must (BigEndian.Uint16 data) ;;
    quality <- must (BigEndian.Uint16 (drop 2 data)) ;;
    if (quality <? ReadBitsQuantityMin) || (quality >? ReadBitsQuantityMax)
    then illegalDataValue
    else
      res <- (if isCoil then ReadCoils address quality
              else ReadDiscretes address quality) ;;
      let '(value, err) := res in
      match err with
      | Some e => ret (None, Some e)
      | None => ret (Some ([uint8 (len value)] ++ value), None)
      end.

Definition funcReadDiscreteInputs (data : list byte) : M R Result :=
  readBits data false.

Definition funcReadCoils (data : list byte) : M R Result :=
  readBits data true.

Definition funcWriteSingleCoil (data : list byte) : M R Result :=
  if negb (len data =? FuncWriteMinSize) then illegalDataValue
  else
    address <- must (BigEndian.Uint16 data) ;;
    newValue <- must (BigEndian.Uint16 (drop 2 data)) ;;
    if negb ((newValue =? 0xFF00) || (newValue =? 0x0000))
    then illegalDataValue
    else
      let b := if newValue =? 0xFF00 then uint8 1 else uint8 0 in
      err <- WriteCoils address 1 [b] ;;
      ret (Some data, err).

Definition funcWriteMultiCoils (data : list byte) : M R Result :=
  if len data <? FuncWriteMultiMinSize then illegalDataValue
  else
    address <- must (BigEndian.Uint16 data) ;;
    quality <- must (BigEndian.Uint16 (drop 2 data)) ;;
    byteCnt <- must (data !! 4%nat) ;;
    if (quality <? WriteBitsQuantityMin) || (quality >? WriteBitsQuantityMax)
       || negb (bool_decide (byteCnt = uint8 (uint16 (quality + 7) / 8)))
    then illegalDataValue
    else
      err <- WriteCoils address quality (drop 5 data) ;;
      ret (Some (take 4 data), err).

Definition readRegisters (data : list byte) (isHolding : bool) : M R Result :=
  if negb (len data =? FuncReadMinSize) then illegalDataValue
  else
    address <- must (BigEndian.Uint16 data) ;;
    quality <- must (BigEndian.Uint16 (drop 2 data)) ;;
    if (quality >? ReadRegQuantityMax) || (quality <? ReadRegQuantityMin)
    then illegalDataValue
    else
      res <- (if isHolding then ReadHoldingsBytes address quality
              else ReadInputsBytes address quality) ;;
      let '(value, err) := res in
      match err with
      | Some e => ret (None, Some e)
      | None => ret (Some ([uint8 (uint16 (quality * 2))] ++ value), None)
      end.

Definition funcReadInputRegisters (data : list byte) : M R Result :=
  readRegisters data false.

Definition funcReadHoldingRegisters (data : list byte) : M R Result :=
  readRegisters data true.

Definition funcWriteSingleRegister (data : list byte) : M R Result :=
  if negb (len data =? FuncWriteMinSize) then illegalDataValue
  else
    address <- must (BigEndian.Uint16 data) ;;
    err <- WriteHoldingsBytes address 1 (drop 2 data) ;;
    ret (Some data, err).

(** On success the count is stored back over [data[2:4]] and the first four
    bytes of the request buffer are the response. *)
Definition funcWriteMultiHoldingRegisters (data : list byte) : M R Result :=
  if len data <? FuncWriteMultiMinSize then illegalDataValue
  else
    address <- must (BigEndian.Uint16 data) ;;
    count <- must (BigEndian.Uint16 (drop 2 data)) ;;
    byteCnt <- must (data !! 4%nat) ;;
    if (count <? WriteRegQuantityMin) || (count >? WriteRegQuantityMax)
       || negb (bool_decide (byteCnt = uint8 (uint16 (count * 2))))
    then illegalDataValue
    else
      err <- WriteHoldingsBytes address count (drop 5 data) ;;
      match err with
      | Some e => ret (None, Some e)
      | None => ret (Some (take 2 data ++ BigEndian.PutUint16 count), None)
      end.

Definition funcReadWriteMultiHoldingRegisters (data : list byte) : M R Result :=
  if len data <? FuncReadWriteMinSize then illegalDataValue
  else
    readAddress <- must (BigEndian.Uint16 data) ;;
    readCount <- must (BigEndian.Uint16 (drop 2 data)) ;;
    writeAddress <- must (BigEndian.Uint16 (drop 4 data)) ;;
    WriteCount <- must (BigEndian.Uint16 (drop 6 data)) ;;
    writeByteCnt <- must (data !! 8%nat) ;;
    if (readCount <? ReadWriteOnReadRegQuantityMin)
       || (readCount >? ReadWriteOnReadRegQuantityMax)
       || (WriteCount <? ReadWriteOnWriteRegQuantityMin)
       || (WriteCount >? ReadWriteOnWriteRegQuantityMax)
       || negb (bool_decide (writeByteCnt = uint8 (uint16 (WriteCount * 2))))
    then illegalDataValue
    else
      werr <- WriteHoldingsBytes writeAddress WriteCount (drop 9 data) ;;
      match werr with
      | Some e => ret (None, Some e)
      | None =>
          res <- ReadHoldingsBytes readAddress readCount ;;
          let '(value, err) := res in
          match err with
          | Some e => ret (None, Some e)
          | None => ret (Some ([uint8 (uint16 (readCount * 2))] ++ value), None)
          end
      end.

Definition funcMaskWriteRegisters (data : list byte) : M R Result :=
  if negb (len data =? FuncMaskWriteMinSize) then illegalDataValue
  else
    referAddress <- must (BigEndian.Uint16 data) ;;
    andMask <- must (BigEndian.Uint16 (drop 2 data)) ;;
    orMask <- must (BigEndian.Uint16 (drop 4 data)) ;;
    err <- MaskWriteHolding referAddress andMask orMask ;;
    ret (Some data, err).

(** [serverHandler]: the dispatch table [map[uint8]FunctionHandler]. *)
Record serverHandler : Type := { function : gmap byte FunctionHandler }.

Definition newServerHandler : serverHandler :=
  {| function :=
       <[FuncCodeReadDiscreteInputs := funcReadDiscreteInputs]> (
       <[FuncCodeReadCoils := funcReadCoils]> (
       <[FuncCodeWriteSingleCoil := funcWriteSingleCoil]> (
       <[FuncCodeWriteMultipleCoils := funcWriteMultiCoils]> (
       <[FuncCodeReadInputRegisters := funcReadInputRegisters]> (
       <[FuncCodeReadHoldingRegisters := funcReadHoldingRegisters]> (
       <[FuncCodeWriteSingleRegister := funcWriteSingleRegister]> (
       <[FuncCodeWriteMultipleRegisters := funcWriteMultiHoldingRegisters]> (
       <[FuncCodeReadWriteMultipleRegisters := funcReadWriteMultiHoldingRegisters]> (
       <[FuncCodeMaskWriteRegister := funcMaskWriteRegisters]> ∅))))))))) |}.

Definition RegisterFunctionHandler (this : serverHandler) (funcCode : byte)
    (fn : FunctionHandler) : serverHandler :=
  {| function := <[funcCode := fn]> (function this) |}.
End Handlers.

Arguments FunctionHandler R : clear implicits.
Arguments serverHandler R : clear implicits.

(** ** The connection

  The peer's bytes still to be received are [rx]; once they are used up
  every read fails with [rxEnd].  [tx] collects the bytes written to the
  socket.  [txFault] scripts the outcome of the coming [conn.Write] calls:
  [None] (or no entry) accepts the whole slice, [Some (n, e)] accepts at
  most [n] bytes and fails with [e].  Setting a deadline on the connection
  is taken to succeed. *)

Inductive ioerror : Type :=
| EOF
| ErrClosedPipe
| ErrUnexpectedEOF
| ErrNet (temporary closedConn : bool)
| ErrIO (closedConn : bool).

Record Conn : Type := {
rx : list byte;
rxEnd : ioerror;
tx : list byte;
txFault : list (option (Z * ioerror))
}.

Definition isEOF (e : ioerror) : bool :=
match e with EOF => true | _ => false end.

Definition isErrClosedPipe (e : ioerror) : bool :=
match e with ErrClosedPipe => true | _ => false end.

(** [strings.Contains(err.Error(), "use of closed network connection")] *)
Definition closedConnection (e : ioerror) : bool :=
match e with
| ErrNet _ c | ErrIO c => c
| _ => false
end.

(** [e, ok := err.(net.Error)], giving [e.Temporary()] when [ok]. *)
Definition asNetError (e : ioerror) : option bool :=
match e with
| ErrNet t _ => Some t
| _ => None
end.

(** [io.ReadFull(conn, buf)] with [n = len(buf)]: the bytes stored into the
  buffer and the error. *)
Definition ReadFull (c : Conn) (n : Z) : list byte * option ioerror * Conn :=
if n <=? len (rx c)
then (take (Z.to_nat n) (rx c), None,
      {| rx := drop (Z.to_nat n) (rx c); rxEnd := rxEnd c; tx := tx c; txFault := txFault c |})
else (rx c,
      Some (if isEOF (rxEnd c) && negb (len (rx c) =? 0) then ErrUnexpectedEOF else rxEnd c),
      {| rx := []; rxEnd := rxEnd c; tx := tx c; txFault := txFault c |}).

(** [conn.Write(b)] *)
Definition Write (c : Conn) (b : list byte) : Z * option ioerror * Conn :=
match txFault c with
| Some (n, e) :: script =>
    let k := Z.min (Z.max n 0) (len b) in
    (k, Some e,
     {| rx := rx c; rxEnd := rxEnd c; tx := tx c ++ take (Z.to_nat k) b; txFault := script |})
| None :: script =>
    (len b, None, {| rx := rx c; rxEnd := rxEnd c; tx := tx c ++ b; txFault := script |})
| [] =>
    (len b, None, {| rx := rx c; rxEnd := rxEnd c; tx := tx c ++ b; txFault := [] |})
end.

(** The three tests after a failed read in [handlerModbus]: [true] when the
  worker returns. *)
Definition readFatal (bytesRead : Z) (err : ioerror) : bool :=
if (negb (isEOF err) && negb (isErrClosedPipe err)) || closedConnection err then true
else if match asNetError err with Some t => negb t | None => false end then true
else if (bytesRead =? 0) && isEOF err then true
else false.

(** The two tests after a failed write in [frameHandler]: [true] when the
  error is returned. *)
Definition writeFatal (err : ioerror) : bool :=
if (negb (isEOF err) && negb (isErrClosedPipe err)) || closedConnection err then true
else match asNetError err with Some t => negb t | None => true end.

(** The closure that ends [frameHandler]: write [b] until all of it is out.
  [None] when the fuel runs out. *)
Fixpoint writeAll (fuel : nat) (c : Conn) (b : list byte) (wrCnt : Z)
  : option (option ioerror) * Conn :=
match fuel with
| O => (None, c)
| S fuel' =>
    if len b >? wrCnt then
      let '(byteCount, err, c1) := Write c (drop (Z.to_nat wrCnt) b) in
      match err with
      | Some e =>
          if writeFatal e then (Some (Some e), c1)
          else writeAll fuel' c1 b (wrCnt + byteCount)
      | None => writeAll fuel' c1 b (wrCnt + byteCount)
      end
    else (Some None, c)
end.

(** ** The server *)

Section TCPServer.
Context {R : Type} {NR : NodeRegister R}.

(** [TCPServer]: the slave map ([sync.Map] from slave id to register), the
    embedded [*pool] and the embedded [serverHandler].  Storing a register
    state back under its id stands for the mutation through the
    [*NodeRegister] pointer.

    Modelled from the spec: the pool type is not among the sources.  Section
    4.5 makes it a size-homogeneous store of fixed-capacity buffers, so
    [pool] is the capacity of the buffers it hands out, the argument of
    [newPool]. *)
Record TCPServer : Type := {
  node : gmap byte R;
  pool : Z;
  handler : serverHandler R
}.

Definition NewTCPServer : TCPServer :=
  {| node := ∅; pool := tcpAduMaxSize; handler := newServerHandler |}.

(** [AddNodes] for one node, [slaveID] being [v.slaveID]. *)
Definition AddNode (this : TCPServer) (slaveID : byte) (v : R) : TCPServer :=
  {| node := <[slaveID := v]> (node this); pool := pool this; handler := handler this |}.

Definition DeleteNode (this : TCPServer) (slaveID : byte) : TCPServer :=
  {| node := delete slaveID (node this); pool := pool this; handler := handler this |}.

Definition GetNode (this : TCPServer) (slaveID : byte) : option R :=
  node this !! slaveID.

(** What one worker works on: the server, its connection and the journal
    of the backend calls made so far. *)
Record World : Type := {
  srv : TCPServer;
  conn : Conn;
  journal : list Call
}.

(** The response ADU: the first seven bytes of the request buffer
    overwritten with the header, then the function code and the payload
    appended. *)
Definition responseAdu (transactionID protocolID : Z) (slaveID funcCode : byte)
    (rspPduData : list byte) : list byte :=
  BigEndian.PutUint16 transactionID ++ BigEndian.PutUint16 protocolID
    ++ BigEndian.PutUint16 (uint16 (2 + len rspPduData))
    ++ [slaveID] ++ [funcCode] ++ rspPduData.

(** How [frameHandler] leaves its frame before anything is written. *)
Inductive Dispatch : Type :=
| Fault                              (* a panic, recovered: no reply *)
| Ignored                            (* slave id not registered: no reply *)
| Reply (b : list byte).             (* the response ADU to write *)

Definition slice (rspPduData : option (list byte)) : list byte :=
  match rspPduData with
  | Some s => s
  | None => []
  end.

Definition dispatch (this : TCPServer) (requestAdu : list byte)
    : Dispatch * TCPServer * list Call :=
  match BigEndian.Uint16 requestAdu,
        BigEndian.Uint16 (drop 2 requestAdu),
        BigEndian.Uint16 (drop 4 requestAdu),
        requestAdu !! 6%nat,
        requestAdu !! 7%nat with
  | Some transactionID, Some protocolID, Some _, Some slaveID, Some funcCode =>
      let pduData := drop 8 requestAdu in
      match GetNode this slaveID with
      | None => (Ignored, this, [])
      | Some reg =>
          let found : option (FunctionHandler R) := function (handler this) !! funcCode in
          let '(res, reg1, calls) :=
            match found with
            | Some handle => handle pduData reg
            | None => (Some (None, Some (ExceptionError ExceptionCodeIllegalFunction)), reg, [])
            end in
          let this1 := AddNode this slaveID reg1 in
          match res with
          | None => (Fault, this1, calls)
          | Some (rspPduData, None) =>
              (Reply (responseAdu transactionID protocolID slaveID funcCode
                        (slice rspPduData)), this1, calls)
          | Some (_, Some (ExceptionError code)) =>
              (Reply (responseAdu transactionID protocolID slaveID
                        (uint8 (Z.lor (byte.unsigned funcCode) 0x80)) [code]),
               this1, calls)
          | Some (_, Some OtherError) => (Fault, this1, calls)
          end
      end
  | _, _, _, _, _ => (Fault, this, [])
  end.

(** [frameHandler]: the error it returns ([Some None] is [nil]; [None] when
    the fuel of the write loop runs out). *)
Definition frameHandler (fuel : nat) (w : World) (requestAdu : list byte)
    : option (option ioerror) * World :=
  let '(d, this1, calls) := dispatch (srv w) requestAdu in
  match d with
  | Reply b =>
      let '(err, conn1) := writeAll fuel (conn w) b 0 in
      (err, {| srv := this1; conn := conn1; journal := journal w ++ calls |})
  | _ => (Some None, {| srv := this1; conn := conn w; journal := journal w ++ calls |})
  end.

(** How the frame loop of [handlerModbus] is left. *)
Inductive Frame : Type :=
| FrameNext      (* the loop ended or broke off: on to the next frame *)
| FrameReturn    (* [return]: the connection is closed *)
| FramePanic     (* a fault outside [frameHandler]: nothing recovers it *)
| FrameFuel.

Definition withConn (w : World) (c : Conn) : World :=
  {| srv := srv w; conn := c; journal := journal w |}.

(** The inner [for length, rdCnt := tcpHeaderMbapSize, 0; rdCnt < length; ]
    loop.  [adu] holds [adu[:rdCnt]], the bytes of the current frame read
    so far: the loop starts every frame at [rdCnt = 0] and looks at the
    buffer only below [rdCnt].  Slicing [adu[rdCnt:length]] faults when
    [length] exceeds the capacity of the pooled buffer.  [wfuel] bounds the
    write loop of [frameHandler], [fuel] the iterations of this loop. *)
Fixpoint readFrame (wfuel fuel : nat) (w : World) (length rdCnt : Z) (adu : list byte)
    : Frame * World :=
  match fuel with
  | O => (FrameFuel, w)
  | S fuel' =>
      if rdCnt <? length then
        if pool (srv w) <? length then (FramePanic, w)
        else
          let '(got, err, conn1) := ReadFull (conn w) (length - rdCnt) in
          let bytesRead := len got in
          let w1 := withConn w conn1 in
          if match err with Some e => readFatal bytesRead e | None => false end
          then (FrameReturn, w1)
          else
            let adu1 := adu ++ got in
            let rdCnt1 := rdCnt + bytesRead in
            if rdCnt1 >=? length then
              match BigEndian.Uint16 (drop 2 adu1), BigEndian.Uint16 (drop 4 adu1) with
              | Some protocolID, Some declared =>
                  if negb (protocolID =? tcpProtocolIdentifier) then (FrameNext, w1)
                  else
                    let length1 := declared + tcpHeaderMbapSize - 1 in
                    if rdCnt1 =? length1 then
                      match frameHandler wfuel w1 (take (Z.to_nat length1) adu1) with
                      | (Some None, w2) => readFrame wfuel fuel' w2 length1 rdCnt1 adu1
                      | (Some (Some _), w2) => (FrameReturn, w2)
                      | (None, w2) => (FrameFuel, w2)
                      end
                    else readFrame wfuel fuel' w1 length1 rdCnt1 adu1
              | _, _ => (FramePanic, w1)
              end
            else readFrame wfuel fuel' w1 length rdCnt1 adu1
      else (FrameNext, w)
  end.

(** How a worker ends. *)
Inductive Served : Type :=
| Closed       (* [handlerModbus] returned and closed the connection *)
| Crashed      (* the worker died of a fault *)
| Serving.     (* out of fuel: still in its loop *)

(** [handlerModbus]: [ctxDone i] tells whether the shutdown token is seen
    before the [i]-th frame; [adu := frame.adu[:tcpAduMaxSize]] faults on a
    pooled buffer of a smaller capacity.  [k] bounds the iterations of the
    loops run for one frame, [fuel] the number of frames. *)
Fixpoint handlerModbus (k fuel : nat) (ctxDone : nat → bool) (i : nat) (w : World)
    : Served * World :=
  match fuel with
  | O => (Serving, w)
  | S fuel' =>
      if ctxDone i then (Closed, w)
      else if pool (srv w) <? tcpAduMaxSize then (Crashed, w)
      else
        match readFrame k k w tcpHeaderMbapSize 0 [] with
        | (FrameNext, w1) => handlerModbus k fuel' ctxDone (S i) w1
        | (FrameReturn, w1) => (Closed, w1)
        | (FramePanic, w1) => (Crashed, w1)
        | (FrameFuel, w1) => (Serving, w1)
        end
  end.
End TCPServer.

Arguments TCPServer R : clear implicits.
Arguments World R : clear implicits.


(** ** A register store

    Modelled from the spec: the register storage backend is not among the
    sources.  Section 3 gives a node four independent addressable spaces
    (discrete inputs, coils, input registers, holding registers), each
    range-checked by the backend; section 6 gives the contract of the seven
    methods, address and range failures surfacing as Exception Codes; section
    4.4 gives the mask-write formula.  Bits are packed eight to a byte, least
    significant first, and words are two bytes, big-endian.  The store serves
    to run the handlers on concrete requests. *)

Record Register : Type := {
  discretes : list bool;
  coils : list bool;
  inputs : list Z;
  holdings : list Z
}.

Definition illegalDataAddress : option error :=
  Some (ExceptionError ExceptionCodeIllegalDataAddress).

Definition inRange {A : Type} (space : list A) (address quality : Z) : bool :=
  (0 <=? address) && (0 <=? quality) && (address + quality <=? len space).

Definition window {A : Type} (space : list A) (address quality : Z) : list A :=
  take (Z.to_nat quality) (drop (Z.to_nat address) space).

Definition overwrite {A : Type} (space : list A) (address : Z) (new : list A) : list A :=
  take (Z.to_nat address) space ++ new
    ++ drop (Z.to_nat address + length new) space.

Definition packByte (bits : list bool) (j : nat) : byte :=
  uint8 (fold_right (fun i acc => acc + if nth (8 * j + i) bits false then 2 ^ Z.of_nat i else 0)
           0 (seq 0 8)).

Definition packBits (bits : list bool) : list byte :=
  map (packByte bits) (seq 0 ((length bits + 7) / 8)).

Definition unpackBits (quality : Z) (value : list byte) : list bool :=
  map (fun i => Z.testbit (byte.unsigned (nth (i / 8) value Byte.x00)) (Z.of_nat (i mod 8)))
      (seq 0 (Z.to_nat quality)).

Definition wordBytes (words : list Z) : list byte :=
  flat_map BigEndian.PutUint16 words.

Fixpoint bytesWords (value : list byte) : list Z :=
  match value with
  | b0 :: b1 :: rest =>
      Z.lor (byte.unsigned b1) (Z.shiftl (byte.unsigned b0) 8) :: bytesWords rest
  | _ => []
  end.

Definition readBitSpace (space : list bool) (address quality : Z) : list byte * option error :=
  if inRange space address quality
  then (packBits (window space address quality), None)
  else ([], illegalDataAddress).

Definition readWordSpace (space : list Z) (address quality : Z) : list byte * option error :=
  if inRange space address quality
  then (wordBytes (window space address quality), None)
  else ([], illegalDataAddress).

#[global] Instance Register_node : NodeRegister Register := {|
  nodeReadCoils address quality r := (readBitSpace (coils r) address quality, r);
  nodeReadDiscretes address quality r := (readBitSpace (discretes r) address quality, r);
  nodeWriteCoils address quality value r :=
    if inRange (coils r) address quality && (quality <=? 8 * len value)
    then (None, {| discretes := discretes r;
                   coils := overwrite (coils r) address (unpackBits quality value);
                   inputs := inputs r; holdings := holdings r |})
    else (illegalDataAddress, r);
  nodeReadHoldingsBytes address quality r := (readWordSpace (holdings r) address quality, r);
  nodeReadInputsBytes address quality r := (readWordSpace (inputs r) address quality, r);
  nodeWriteHoldingsBytes address quality value r :=
    if inRange (holdings r) address quality && (len value =? 2 * quality)
    then (None, {| discretes := discretes r; coils := coils r; inputs := inputs r;
                   holdings := overwrite (holdings r) address (bytesWords value) |})
    else (illegalDataAddress, r);
  nodeMaskWriteHolding ref andMask orMask r :=
    match holdings r !! Z.to_nat ref with
    | Some current =>
        (None, {| discretes := discretes r; coils := coils r; inputs := inputs r;
                  holdings := <[Z.to_nat ref :=
                                  Z.lor (Z.land current andMask)
                                        (Z.land orMask (Z.lxor andMask 0xFFFF))]> (holdings r) |})
    | None => (illegalDataAddress, r)
    end
|}.

(** A node with sixteen cells in every space. *)
Definition node16 : Register :=
  {| discretes := repeat true 16; coils := repeat false 16;
     inputs := map Z.of_nat (seq 100 16); holdings := repeat 0 16 |}.

Definition slave1 : byte := Byte.x01.

Definition server1 : TCPServer Register := AddNode NewTCPServer slave1 node16.

Definition peer (bytes : list byte) : Conn :=
  {| rx := bytes; rxEnd := EOF; tx := []; txFault := [] |}.

Definition world1 (bytes : list byte) : World Register :=
  {| srv := server1; conn := peer bytes; journal := [] |}.

Definition hex (l : list Z) : list byte := map uint8 l.

(** A handler that answers any request with 65534 zero bytes, registered
    under the user-defined function code 0x41. *)
Definition bulk : FunctionHandler Register :=
  fun _ => ret (Some (repeat Byte.x00 (Z.to_nat 65534)), None).

Definition server2 : TCPServer Register :=
  {| node := node server1; pool := pool server1;
     handler := RegisterFunctionHandler (handler server1) Byte.x41 bulk |}.

(** The shutdown token that is never signalled. *)
Definition never : nat → bool := fun _ => false.

(** Read two holding registers from address 0 of slave 1, and the reply. *)
Definition readRequest : list byte := hex [0; 1; 0; 0; 0; 6; 1; 3; 0; 0; 0; 2].
Definition readResponse : list byte := hex [0; 1; 0; 0; 0; 7; 1; 3; 4; 0; 0; 0; 0].

(** Read/Write Multiple Registers data: read two words from address 0 and
    write two words at address 1; the second writes one word at address 99,
    outside the sixteen holding registers. *)
Definition rwRequest : list byte := hex [0; 0; 0; 2; 0; 1; 0; 2; 4; 0; 10; 1; 2].
Definition rwRequestBad : list byte := hex [0; 0; 0; 2; 0; 99; 0; 1; 2; 0; 7].

(** ** Vocabulary of the statements *)

(** The connection after [sent] more bytes went out. *)
Definition wrote (c : Conn) (sent : list byte) : Conn :=
  {| rx := rx c; rxEnd := rxEnd c; tx := tx c ++ sent; txFault := txFault c |}.

(** The connection once the peer's pending bytes are down to [rest]. *)
Definition pending (c : Conn) (rest : list byte) : Conn :=
  {| rx := rest; rxEnd := rxEnd c; tx := tx c; txFault := txFault c |}.

(** A request as it is framed on the wire: seven header bytes with the
    Modbus protocol identifier, whose length field counts the unit id and
    the bytes of [body]. *)
Definition framed (hdr body : list byte) : Prop :=
  length hdr = 7%nat
  ∧ BigEndian.Uint16 (drop 2 hdr) = Some tcpProtocolIdentifier
  ∧ BigEndian.Uint16 (drop 4 hdr) = Some (1 + len body).

(** The response ADU over the request header [h0 h1 h2 h3 _ _ u]. *)
Definition answer (h0 h1 h2 h3 u funcCode : byte) (rspPduData : list byte) : list byte :=
  [h0; h1; h2; h3] ++ BigEndian.PutUint16 (uint16 (2 + len rspPduData))
    ++ u :: funcCode :: rspPduData.

(** The function code of an exception reply: [funcCode |= 0x80]. *)
Definition exceptionCode (funcCode : byte) : byte :=
  uint8 (Z.lor (byte.unsigned funcCode) 0x80).


Section Vocabulary.
Context {R : Type} {NR : NodeRegister R}.

(** The outcome of a handler that refuses its request: Exception Code 3, the
    register untouched, no backend call. *)
Definition refused (r : R) : option Result * R * list Call :=
  (Some (None, Some (ExceptionError ExceptionCodeIllegalDataValue)), r, []).

(** The backend read behind Read Holding Registers and Read Input
    Registers, and its journal entry. *)
Definition readCall (isHolding : bool) (address quality : Z) : Call :=
  if isHolding then CallReadHoldingsBytes address quality
  else CallReadInputsBytes address quality.

Definition nodeRead (isHolding : bool) (address quality : Z) (r : R)
    : list byte * option error * R :=
  if isHolding then nodeReadHoldingsBytes address quality r
  else nodeReadInputsBytes address quality r.


(** The world once the peer's pending bytes are down to [rest]. *)
Definition received (w : World R) (rest : list byte) : World R :=
  withConn w (pending (conn w) rest).

(** What the frame loop does with the error [frameHandler] returned. *)
Definition afterFrame (out : option (option ioerror) * World R) : Frame * World R :=
  match out with
  | (Some None, w2) => (FrameNext, w2)
  | (Some (Some _), w2) => (FrameReturn, w2)
  | (None, w2) => (FrameFuel, w2)
  end.

(** What the worker does with the error [frameHandler] returned. *)
Definition afterServed (k fuel : nat) (ctxDone : nat → bool) (i : nat)
    (out : option (option ioerror) * World R) : Served * World R :=
  match out with
  | (Some None, w2) => handlerModbus k fuel ctxDone (S i) w2
  | (Some (Some _), w2) => (Closed, w2)
  | (None, w2) => (Serving, w2)
  end.
End Vocabulary.

(** ** The rest of the registry, and more vocabulary *)

Section Extra.
Context {R : Type} {NR : NodeRegister R}.

(** The backend read behind Read Coils and Read Discrete Inputs, and its
    journal entry. *)
Definition bitsCall (isCoil : bool) (address quality : Z) : Call :=
  if isCoil then CallReadCoils address quality
  else CallReadDiscretes address quality.

Definition nodeReadBits (isCoil : bool) (address quality : Z) (r : R)
    : list byte * option error * R :=
  if isCoil then nodeReadCoils address quality r
  else nodeReadDiscretes address quality r.

(** What a read handler returns after its backend read: the error alone, or
    the byte-count byte [count] followed by the value read. *)
Definition readResult (count : byte) (value : list byte) (err : option error) : Result :=
  match err with
  | Some e => (None, Some e)
  | None => (Some (count :: value), None)
  end.

(** [AddNodes]: every node is stored under its [slaveID] field, in the order
    given.  The field belongs to the register type, which is outside the
    sources, so its accessor is an argument. *)
Definition AddNodes (slaveID : R → byte) (this : TCPServer R) (nodes : list R)
    : TCPServer R :=
  foldl (fun this v => AddNode this (slaveID v) v) this nodes.

(** [DeleteAllNode]: [Range] over the map, deleting every key visited. *)
Definition DeleteAllNode (this : TCPServer R) : TCPServer R :=
  foldl (fun this kv => DeleteNode this (fst kv)) this (map_to_list (node this)).

(** [GetNodeList]: [Range] over the map, appending every value visited.
    The order in which [sync.Map] visits its entries is not fixed; the
    model visits them in the order of [map_to_list]. *)
Definition GetNodeList (this : TCPServer R) : list R :=
  snd <$> map_to_list (node this).

(** [sync.Map.Range]: call [f] on one entry after the other until it returns
    false.  The callback is a closure; [S] is what it captures. *)
Fixpoint rangeOver {S : Type} (f : byte → R → S → bool * S) (entries : list (byte * R))
    (s : S) : S :=
  match entries with
  | [] => s
  | (k, v) :: rest =>
      let '(continue, s1) := f k v s in
      if continue then rangeOver f rest s1 else s1
  end.

(** [Range] *)
Definition Range {S : Type} (this : TCPServer R) (f : byte → R → S → bool * S) (s : S) : S :=
  rangeOver f (map_to_list (node this)) s.

(** A visitor that decides with [f] and records what it was called on. *)
Definition recording (f : byte → R → bool) (k : byte) (v : R) (seen : list (byte * R))
    : bool * list (byte * R) :=
  (f k v, seen ++ [(k, v)]).

(** [RegisterFunctionHandler] called on the server, which embeds its
    [*serverHandler]. *)
Definition TCPServer_RegisterFunctionHandler (this : TCPServer R) (funcCode : byte) (fn : FunctionHandler R)
    : TCPServer R :=
  {| node := node this; pool := pool this;
     handler := RegisterFunctionHandler (handler this) funcCode fn |}.

(** A whole frame as it travels: a header and the bytes it announces, within
    the size of an ADU. *)
Definition wellFramed (frame : list byte) : Prop :=
  ∃ hdr body, frame = hdr ++ body ∧ framed hdr body ∧ len frame ≤ tcpAduMaxSize.

(** What [frameHandler] writes for a frame: the reply, or nothing. *)
Definition replyBytes (d : Dispatch) : list byte :=
  match d with
  | Reply b => b
  | _ => []
  end.

(** The world after a frame was handled on a connection that takes every
    write. *)
Definition served (w : World R) (requestAdu : list byte) : World R :=
  let '(d, this1, calls) := dispatch (srv w) requestAdu in
  {| srv := this1; conn := wrote (conn w) (replyBytes d); journal := journal w ++ calls |}.

(** The replies to a sequence of frames, each dispatched on the server the
    previous ones left. *)
Fixpoint replies (this : TCPServer R) (frames : list (list byte)) : list (list byte) :=
  match frames with
  | [] => []
  | frame :: rest =>
      let '(d, this1, _) := dispatch this frame in
      replyBytes d :: replies this1 rest
  end.
End Extra.

(** A handler that faults, registered under the user-defined function code
    0x42. *)
Definition faulty : FunctionHandler Register := fun _ => panic.

Definition server3 : TCPServer Register :=
  TCPServer_RegisterFunctionHandler server1 Byte.x42 faulty.

(** Write Multiple Registers: the words 0x000A and 0x0102 at address 1 of
    slave 1, and the reply. *)
Definition writeRequest : list byte :=
  hex [0; 2; 0; 0; 0; 11; 1; 16; 0; 1; 0; 2; 4; 0; 10; 1; 2].
Definition writeResponse : list byte := hex [0; 2; 0; 0; 0; 6; 1; 16; 0; 1; 0; 2].

(** Read four holding registers from address 0 of slave 1 once the words
    are written, and the reply. *)
Definition readBack : list byte := hex [0; 3; 0; 0; 0; 6; 1; 3; 0; 0; 0; 4].
Definition readBackResponse : list byte :=
  hex [0; 3; 0; 0; 0; 11; 1; 3; 8; 0; 0; 0; 10; 1; 2; 0; 0].

(** * Properties *)

Section Properties.
Context {R : Type} {NR : NodeRegister R}.

(** ** Bytes and big-endian words *)

Lemma byte_range (b : byte) : 0 ≤ byte.unsigned b < 256.
Proof. pose proof (byte.unsigned_range b) as H. change (2 ^ 8) with 256 in H. exact H. Qed.

Lemma unsigned_uint8 (z : Z) : byte.unsigned (uint8 z) = z mod 256.
Proof. unfold uint8. rewrite byte.unsigned_of_Z. reflexivity. Qed.

Lemma unsigned_uint8_small (z : Z) : 0 ≤ z < 256 → byte.unsigned (uint8 z) = z.
Proof. intros H. rewrite unsigned_uint8. apply Z.mod_small. exact H. Qed.

Lemma lor_shiftl_byte (a b : byte) :
  Z.lor (byte.unsigned b) (Z.shiftl (byte.unsigned a) 8) = 256 * byte.unsigned a + byte.unsigned b.
Proof.
  pose proof (byte_range a) as Ha. pose proof (byte_range b) as Hb.
  rewrite Z.shiftl_mul_pow2 by lia. change (2 ^ 8) with 256.
  rewrite Z.lor_comm, <- Z.add_nocarry_lor; [lia|].
  apply Z.bits_inj'. intros n Hn. rewrite Z.land_spec, Z.bits_0.
  destruct (Z.lt_ge_cases n 8) as [Hlt|Hge].
  - change 256 with (2 ^ 8). rewrite Z.mul_pow2_bits_low by lia. reflexivity.
  - rewrite (Z.bits_above_log2 (byte.unsigned b) n); [apply andb_false_r|lia|].
    destruct (Z.eq_dec (byte.unsigned b) 0) as [->|Hne]; [simpl; lia|].
    apply Z.lt_le_trans with 8; [|lia]. apply Z.log2_lt_pow2; lia.
Qed.

Lemma Uint16_cons (a b : byte) (l : list byte) :
  BigEndian.Uint16 (a :: b :: l) = Some (256 * byte.unsigned a + byte.unsigned b).
Proof. simpl. rewrite lor_shiftl_byte. reflexivity. Qed.

Lemma Uint16_range (s : list byte) (v : Z) : BigEndian.Uint16 s = Some v → 0 ≤ v < 65536.
Proof.
  destruct s as [|a [|b l]]; try discriminate. rewrite Uint16_cons. intros [= <-].
  pose proof (byte_range a). pose proof (byte_range b). lia.
Qed.

Lemma PutUint16_Uint16 (a b : byte) (l : list byte) (v : Z) :
  BigEndian.Uint16 (a :: b :: l) = Some v → BigEndian.PutUint16 v = [a; b].
Proof.
  rewrite Uint16_cons. intros [= <-].
  pose proof (byte_range a) as Ha. pose proof (byte_range b) as Hb.
  unfold BigEndian.PutUint16. rewrite Z.shiftr_div_pow2 by lia. change (2 ^ 8) with 256.
  f_equal; [|f_equal]; apply byte.unsigned_inj; rewrite unsigned_uint8.
  - replace ((256 * byte.unsigned a + byte.unsigned b) / 256) with (byte.unsigned a).
    + apply Z.mod_small; lia.
    + apply Z.div_unique with (byte.unsigned b); lia.
  - symmetry. apply Z.mod_unique with (byte.unsigned a); lia.
Qed.

Lemma Uint16_PutUint16 (v : Z) (l : list byte) :
  BigEndian.Uint16 (BigEndian.PutUint16 v ++ l) = Some (v mod 65536).
Proof.
  unfold BigEndian.PutUint16. cbn [app]. rewrite Uint16_cons, !unsigned_uint8.
  rewrite Z.shiftr_div_pow2 by lia. change (2 ^ 8) with 256. f_equal.
  pose proof (Z.div_mod v 256 ltac:(lia)).
  pose proof (Z.mod_pos_bound v 256 ltac:(lia)).
  pose proof (Z.mod_pos_bound (v / 256) 256 ltac:(lia)).
  pose proof (Z.div_mod (v / 256) 256 ltac:(lia)).
  apply Z.mod_unique with (v / 256 / 256); lia.
Qed.

(** ** Running a handler *)

Lemma bind_ret {A B : Type} (a : A) (k : A → M R B) (r : R) : bind (ret a) k r = k a r.
Proof. unfold bind, ret. destruct (k a r) as [[b r2] l2]. reflexivity. Qed.

Lemma bind_must {A B : Type} (o : option A) (a : A) (k : A → M R B) (r : R) :
  o = Some a → bind (must o) k r = k a r.
Proof. intros ->. apply bind_ret. Qed.

Lemma bind_call {A B : Type} (c : Call) (f : R → A * R) (k : A → M R B) (r r1 : R) (a : A) :
  f r = (a, r1) →
  bind (call c f) k r = (let '(b, r2, l2) := k a r1 in (b, r2, c :: l2)).
Proof. intros H. unfold bind, call. rewrite H. reflexivity. Qed.

Lemma len_4 {A : Type} (data : list A) :
  len data = 4 → ∃ a b c d, data = [a; b; c; d].
Proof.
  unfold len. destruct data as [|a [|b [|c [|d [|e l]]]]]; simpl length; try lia.
  intros _. eauto.
Qed.

(** C8.  Read Input Registers and Read Holding Registers ([readRegisters]).
    A request whose data is not exactly four bytes, or whose quantity lies
    outside [1,125], gets Exception Code 3 and the backend is not called.  A
    four-byte request with a quantity [qty] in [1,125] whose backend read
    succeeds with [value] returns one byte-count byte equal to [2 * qty]
    followed by [value], after that single backend read. *)
Theorem readRegisters_response (data : list byte) (isHolding : bool) (r : R) :
  (len data ≠ 4 → readRegisters data isHolding r = refused r)
  ∧ (len data = 4 →
     ∃ address qty,
       BigEndian.Uint16 data = Some address
       ∧ BigEndian.Uint16 (drop 2 data) = Some qty
       ∧ ((qty < 1 ∨ 125 < qty) → readRegisters data isHolding r = refused r)
       ∧ (1 ≤ qty ≤ 125 →
          ∀ value r1,
            nodeRead isHolding address qty r = (value, None, r1) →
            readRegisters data isHolding r
            = (Some (Some (uint8 (2 * qty) :: value), None), r1,
               [readCall isHolding address qty])
            ∧ byte.unsigned (uint8 (2 * qty)) = 2 * qty)).
Proof.
  split.
  - intros Hlen. unfold readRegisters.
    destruct (len data =? FuncReadMinSize) eqn:E; [|reflexivity].
    apply Z.eqb_eq in E. contradiction.
  - intros Hlen. destruct (len_4 data Hlen) as (a & b & c & d & ->).
    eexists _, _. split; [apply Uint16_cons|]. split; [apply Uint16_cons|].
    set (address := 256 * byte.unsigned a + byte.unsigned b).
    set (qty := 256 * byte.unsigned c + byte.unsigned d).
    assert (Hstep : ∀ k : Z → Z → M R Result,
      (if negb (len [a; b; c; d] =? FuncReadMinSize) then illegalDataValue
       else bind (must (BigEndian.Uint16 [a; b; c; d]))
              (λ x, bind (must (BigEndian.Uint16 (drop 2 [a; b; c; d]))) (k x))) r
      = k address qty r).
    { intros k. change (len [a; b; c; d] =? FuncReadMinSize) with true. cbn [negb].
      rewrite (bind_must _ address) by apply Uint16_cons.
      rewrite (bind_must _ qty) by apply Uint16_cons. reflexivity. }
    unfold readRegisters. rewrite Hstep. clear Hstep.
    unfold ReadRegQuantityMax, ReadRegQuantityMin. split.
    + intros Hq.
      replace ((qty >? 125) || (qty <? 1)) with true; [reflexivity|].
      symmetry. apply orb_true_iff. rewrite Z.gtb_ltb, !Z.ltb_lt. lia.
    + intros Hq value r1 Hread.
      replace ((qty >? 125) || (qty <? 1)) with false.
      2:{ symmetry. apply orb_false_iff. rewrite Z.gtb_ltb, !Z.ltb_ge. lia. }
      split.
      * assert (Hwrap : uint16 (qty * 2) = 2 * qty).
        { unfold uint16. rewrite Z.mod_small; lia. }
        rewrite Hwrap. unfold nodeRead, readCall in *.
        destruct isHolding; unfold ReadHoldingsBytes, ReadInputsBytes;
          rewrite (bind_call _ _ _ _ _ _ Hread); reflexivity.
      * apply unsigned_uint8_small. lia.
Qed.

Lemma len_cons {A : Type} (a : A) (l : list A) : len (a :: l) = 1 + len l.
Proof. unfold len. simpl length. lia. Qed.

Lemma len_nonneg {A : Type} (l : list A) : 0 ≤ len l.
Proof. unfold len. lia. Qed.

(** The first three steps shared by the two write-multiple handlers. *)
Lemma writeMulti_prefix (a b c d e : byte) (rest : list byte)
    (k : Z → Z → byte → M R Result) (r : R) :
  (if len (a :: b :: c :: d :: e :: rest) <? FuncWriteMultiMinSize then illegalDataValue
   else bind (must (BigEndian.Uint16 (a :: b :: c :: d :: e :: rest)))
          (λ x, bind (must (BigEndian.Uint16 (drop 2 (a :: b :: c :: d :: e :: rest))))
             (λ y, bind (must ((a :: b :: c :: d :: e :: rest) !! 4%nat)) (k x y)))) r
  = k (256 * byte.unsigned a + byte.unsigned b) (256 * byte.unsigned c + byte.unsigned d) e r.
Proof.
  replace (len (a :: b :: c :: d :: e :: rest) <? FuncWriteMultiMinSize) with false.
  2:{ symmetry. apply Z.ltb_ge. rewrite !len_cons. pose proof (len_nonneg rest).
      unfold FuncWriteMultiMinSize. lia. }
  rewrite (bind_must _ _ _ _ (Uint16_cons a b _)).
  cbn [drop]. rewrite (bind_must _ _ _ _ (Uint16_cons c d _)).
  rewrite (bind_must _ e) by reflexivity. reflexivity.
Qed.

Lemma short_data (data : list byte) (qty : Z) (byteCnt : byte) :
  BigEndian.Uint16 (drop 2 data) = Some qty → data !! 4%nat = Some byteCnt →
  ∃ a b c d rest,
    data = a :: b :: c :: d :: byteCnt :: rest ∧ qty = 256 * byte.unsigned c + byte.unsigned d.
Proof.
  destruct data as [|a [|b [|c [|d [|e rest]]]]]; try discriminate.
  cbn [drop]. rewrite Uint16_cons. intros [= <-] [= <-]. eauto 10.
Qed.

(** C7.  Write Multiple Coils and Write Multiple Registers.  A request
    shorter than five bytes, or whose quantity is outside the bound of its
    function ([1,1968] coils, [1,123] registers), or whose byte-count field
    differs from what the quantity calls for ([(qty + 7) / 8] for coils,
    [2 * count] for registers), gets Exception Code 3; no backend call is
    made and the register is left as it was. *)
Theorem writeMultiple_refused (data : list byte) (r : R) :
  (len data < 5 →
     funcWriteMultiCoils data r = refused r
     ∧ funcWriteMultiHoldingRegisters data r = refused r)
  ∧ (∀ qty byteCnt,
       BigEndian.Uint16 (drop 2 data) = Some qty → data !! 4%nat = Some byteCnt →
       qty < 1 ∨ 1968 < qty ∨ byte.unsigned byteCnt ≠ (qty + 7) / 8 →
       funcWriteMultiCoils data r = refused r)
  ∧ (∀ count byteCnt,
       BigEndian.Uint16 (drop 2 data) = Some count → data !! 4%nat = Some byteCnt →
       count < 1 ∨ 123 < count ∨ byte.unsigned byteCnt ≠ 2 * count →
       funcWriteMultiHoldingRegisters data r = refused r).
Proof.
  split; [|split].
  - intros Hlen. unfold funcWriteMultiCoils, funcWriteMultiHoldingRegisters.
    replace (len data <? FuncWriteMultiMinSize) with true; [split; reflexivity|].
    symmetry. apply Z.ltb_lt. exact Hlen.
  - intros qty byteCnt Hq Hb Hbad.
    destruct (short_data data qty byteCnt Hq Hb) as (a & b & c & d & rest & -> & Hqty).
    pose proof (Uint16_range _ _ Hq) as Hrange.
    unfold funcWriteMultiCoils. rewrite writeMulti_prefix. rewrite <- Hqty.
    unfold WriteBitsQuantityMin, WriteBitsQuantityMax.
    destruct (Z.ltb_spec qty 1) as [|Hlo]; [reflexivity|].
    rewrite Z.gtb_ltb. destruct (Z.ltb_spec 1968 qty) as [|Hhi]; [reflexivity|].
    cbn [orb]. rewrite bool_decide_eq_false_2; [reflexivity|].
    intros ->. destruct Hbad as [?|[?|Hbad]]; try lia. apply Hbad.
    unfold uint16. rewrite (Z.mod_small (qty + 7)) by lia.
    apply unsigned_uint8_small.
    split; [apply Z.div_pos; lia|]. apply Z.div_lt_upper_bound; lia.
  - intros count byteCnt Hq Hb Hbad.
    destruct (short_data data count byteCnt Hq Hb) as (a & b & c & d & rest & -> & Hcount).
    pose proof (Uint16_range _ _ Hq) as Hrange.
    unfold funcWriteMultiHoldingRegisters. rewrite writeMulti_prefix. rewrite <- Hcount.
    unfold WriteRegQuantityMin, WriteRegQuantityMax.
    destruct (Z.ltb_spec count 1) as [|Hlo]; [reflexivity|].
    rewrite Z.gtb_ltb. destruct (Z.ltb_spec 123 count) as [|Hhi]; [reflexivity|].
    cbn [orb]. rewrite bool_decide_eq_false_2; [reflexivity|].
    intros ->. destruct Hbad as [?|[?|Hbad]]; try lia. apply Hbad.
    unfold uint16. rewrite (Z.mod_small (count * 2)) by lia.
    rewrite unsigned_uint8_small; lia.
Qed.

(** C3, amended.  Read/Write Multiple Registers on a request that passes
    validation.  The write is made first.  When it fails, its error is
    returned and no read is made.  When it succeeds the read is made on the
    written register: a failing read returns its error and leaves the write
    in place, a successful one returns the byte count [2 * readCount]
    followed by the words read. *)
Theorem readWrite_write_then_read (data : list byte) (r : R)
    (readAddress readCount writeAddress WriteCount : Z) (writeByteCnt : byte) :
  9 ≤ len data →
  BigEndian.Uint16 data = Some readAddress →
  BigEndian.Uint16 (drop 2 data) = Some readCount →
  BigEndian.Uint16 (drop 4 data) = Some writeAddress →
  BigEndian.Uint16 (drop 6 data) = Some WriteCount →
  data !! 8%nat = Some writeByteCnt →
  1 ≤ readCount ≤ 125 →
  1 ≤ WriteCount ≤ 121 →
  byte.unsigned writeByteCnt = 2 * WriteCount →
  let write := CallWriteHoldingsBytes writeAddress WriteCount (drop 9 data) in
  let read := CallReadHoldingsBytes readAddress readCount in
  let '(werr, r1) := nodeWriteHoldingsBytes writeAddress WriteCount (drop 9 data) r in
  match werr with
  | Some e =>
      funcReadWriteMultiHoldingRegisters data r = (Some (None, Some e), r1, [write])
  | None =>
      let '(value, rerr, r2) := nodeReadHoldingsBytes readAddress readCount r1 in
      match rerr with
      | Some e =>
          funcReadWriteMultiHoldingRegisters data r
          = (Some (None, Some e), r2, [write; read])
      | None =>
          funcReadWriteMultiHoldingRegisters data r
          = (Some (Some (uint8 (2 * readCount) :: value), None), r2, [write; read])
          ∧ byte.unsigned (uint8 (2 * readCount)) = 2 * readCount
      end
  end.
Proof.
  intros Hlen Hra Hrc Hwa Hwc Hbc Hr Hw Hcnt write read.
  unfold funcReadWriteMultiHoldingRegisters.
  replace (len data <? FuncReadWriteMinSize) with false
    by (symmetry; apply Z.ltb_ge; exact Hlen).
  rewrite (bind_must _ _ _ _ Hra), (bind_must _ _ _ _ Hrc), (bind_must _ _ _ _ Hwa),
    (bind_must _ _ _ _ Hwc), (bind_must _ _ _ _ Hbc).
  unfold ReadWriteOnReadRegQuantityMin, ReadWriteOnReadRegQuantityMax,
    ReadWriteOnWriteRegQuantityMin, ReadWriteOnWriteRegQuantityMax.
  replace ((readCount <? 1) || (readCount >? 125) || (WriteCount <? 1) || (WriteCount >? 121)
           || negb (bool_decide (writeByteCnt = uint8 (uint16 (WriteCount * 2)))))
    with false.
  2:{ symmetry. rewrite !Z.gtb_ltb, !orb_false_iff, !Z.ltb_ge, negb_false_iff.
      repeat split; try lia. apply bool_decide_eq_true_2, byte.unsigned_inj.
      unfold uint16. rewrite (Z.mod_small (WriteCount * 2)) by lia.
      rewrite unsigned_uint8_small; lia. }
  replace (uint16 (readCount * 2)) with (2 * readCount)
    by (unfold uint16; rewrite Z.mod_small; lia).
  unfold WriteHoldingsBytes, ReadHoldingsBytes.
  destruct (nodeWriteHoldingsBytes writeAddress WriteCount (drop 9 data) r)
    as [[e|] r1] eqn:Ewrite; rewrite (bind_call _ _ _ _ _ _ Ewrite).
  - reflexivity.
  - destruct (nodeReadHoldingsBytes readAddress readCount r1) as [[value [e|]] r2] eqn:Eread;
      rewrite (bind_call _ _ _ _ _ _ Eread).
    + reflexivity.
    + split; [reflexivity|]. apply unsigned_uint8_small. lia.
Qed.

(** ** What the default handlers return *)
















(** ** Reading and writing on the connection *)

Lemma wrote_nil (c : Conn) : wrote c [] = c.
Proof. destruct c. unfold wrote. cbn. rewrite app_nil_r. reflexivity. Qed.

Lemma writeAll_S (fuel : nat) (c : Conn) (b : list byte) (wrCnt : Z) :
  writeAll (S fuel) c b wrCnt
  = if len b >? wrCnt then
      let '(byteCount, err, c1) := Write c (drop (Z.to_nat wrCnt) b) in
      match err with
      | Some e =>
          if writeFatal e then (Some (Some e), c1)
          else writeAll fuel c1 b (wrCnt + byteCount)
      | None => writeAll fuel c1 b (wrCnt + byteCount)
      end
    else (Some None, c).
Proof. reflexivity. Qed.

Lemma writeAll_all (fuel : nat) (c : Conn) (b : list byte) :
  txFault c = [] → writeAll (S (S fuel)) c b 0 = (Some None, wrote c b).
Proof.
  intros Hf. rewrite writeAll_S.
  destruct (Z.gtb_spec (len b) 0) as [Hpos|Hzero].
  - change (Z.to_nat 0) with 0%nat. rewrite drop_0. unfold Write. rewrite Hf.
    rewrite writeAll_S.
    replace (len b >? 0 + len b) with false by (symmetry; rewrite Z.gtb_ltb; apply Z.ltb_ge; lia).
    unfold wrote. rewrite Hf. reflexivity.
  - assert (b = []) as ->.
    { destruct b as [|x b]; [reflexivity|]. rewrite len_cons in Hzero.
      pose proof (len_nonneg b). lia. }
    rewrite wrote_nil. reflexivity.
Qed.

Lemma ReadFull_enough (c : Conn) (n : Z) (got rest : list byte) :
  rx c = got ++ rest → len got = n →
  ReadFull c n = (got, None, pending c rest).
Proof.
  intros Hrx Hn. unfold ReadFull, pending. rewrite Hrx.
  replace (n <=? len (got ++ rest)) with true.
  2:{ symmetry. apply Z.leb_le. unfold len in *. rewrite length_app. lia. }
  assert (Z.to_nat n = length got) as -> by (unfold len in Hn; lia).
  rewrite take_app_length, drop_app_length. reflexivity.
Qed.


Lemma readFrame_exit (wfuel fuel : nat) (w : World R) (length rdCnt : Z) (adu : list byte) :
  length ≤ rdCnt → readFrame wfuel (S fuel) w length rdCnt adu = (FrameNext, w).
Proof.
  intros H. cbn [readFrame].
  replace (rdCnt <? length) with false by (symmetry; apply Z.ltb_ge; exact H). reflexivity.
Qed.

Lemma readFrame_fault (wfuel fuel : nat) (w : World R) (length rdCnt : Z) (adu : list byte) :
  rdCnt < length → pool (srv w) < length →
  readFrame wfuel (S fuel) w length rdCnt adu = (FramePanic, w).
Proof.
  intros H1 H2. cbn [readFrame].
  replace (rdCnt <? length) with true by (symmetry; apply Z.ltb_lt; exact H1).
  replace (pool (srv w) <? length) with true by (symmetry; apply Z.ltb_lt; exact H2).
  reflexivity.
Qed.

(** One turn of the frame loop whose read fills the slice. *)
Lemma readFrame_read (wfuel fuel : nat) (w : World R) (length rdCnt : Z)
    (adu got rest : list byte) :
  rdCnt < length → length ≤ pool (srv w) →
  rx (conn w) = got ++ rest → len got = length - rdCnt →
  readFrame wfuel (S fuel) w length rdCnt adu
  = match BigEndian.Uint16 (drop 2 (adu ++ got)), BigEndian.Uint16 (drop 4 (adu ++ got)) with
    | Some protocolID, Some declared =>
        if negb (protocolID =? tcpProtocolIdentifier) then (FrameNext, received w rest)
        else if length =? declared + tcpHeaderMbapSize - 1 then
          match frameHandler wfuel (received w rest)
                  (take (Z.to_nat (declared + tcpHeaderMbapSize - 1)) (adu ++ got)) with
          | (Some None, w2) =>
              readFrame wfuel fuel w2 (declared + tcpHeaderMbapSize - 1) length (adu ++ got)
          | (Some (Some _), w2) => (FrameReturn, w2)
          | (None, w2) => (FrameFuel, w2)
          end
        else readFrame wfuel fuel (received w rest) (declared + tcpHeaderMbapSize - 1)
               length (adu ++ got)
    | _, _ => (FramePanic, received w rest)
    end.
Proof.
  intros H1 H2 Hrx Hgot. cbn [readFrame].
  replace (rdCnt <? length) with true by (symmetry; apply Z.ltb_lt; exact H1).
  replace (pool (srv w) <? length) with false by (symmetry; apply Z.ltb_ge; exact H2).
  rewrite (ReadFull_enough _ _ _ _ Hrx Hgot).
  replace (rdCnt + len got) with length by lia.
  replace (length >=? length) with true by (symmetry; rewrite Z.geb_leb; apply Z.leb_le; lia).
  reflexivity.
Qed.

(** ** Dispatching a frame *)

Lemma responseAdu_answer (h0 h1 h2 h3 u funcCode : byte) (rspPduData : list byte) :
  responseAdu (256 * byte.unsigned h0 + byte.unsigned h1)
    (256 * byte.unsigned h2 + byte.unsigned h3) u funcCode rspPduData
  = answer h0 h1 h2 h3 u funcCode rspPduData.
Proof.
  unfold responseAdu, answer.
  rewrite (PutUint16_Uint16 h0 h1 [] _ (Uint16_cons h0 h1 [])).
  rewrite (PutUint16_Uint16 h2 h3 [] _ (Uint16_cons h2 h3 [])).
  reflexivity.
Qed.

Lemma dispatch_frame (this : TCPServer R) (h0 h1 h2 h3 h4 h5 u fc : byte) (pdu : list byte)
    (found : option (FunctionHandler R)) :
  function (handler this) !! fc = found →
  dispatch this (h0 :: h1 :: h2 :: h3 :: h4 :: h5 :: u :: fc :: pdu)
  = match node this !! u with
    | None => (Ignored, this, [])
    | Some reg =>
        let '(res, reg1, calls) :=
          match found with
          | Some handle => handle pdu reg
          | None =>
              (Some (None, Some (ExceptionError ExceptionCodeIllegalFunction)), reg, [])
          end in
        match res with
        | None => (Fault, AddNode this u reg1, calls)
        | Some (rspPduData, None) =>
            (Reply (answer h0 h1 h2 h3 u fc (slice rspPduData)), AddNode this u reg1, calls)
        | Some (_, Some (ExceptionError code)) =>
            (Reply (answer h0 h1 h2 h3 u (exceptionCode fc) [code]), AddNode this u reg1, calls)
        | Some (_, Some OtherError) => (Fault, AddNode this u reg1, calls)
        end
    end.
Proof.
  intros Hfound. unfold dispatch. cbn [drop]. rewrite !Uint16_cons.
  change ((h0 :: h1 :: h2 :: h3 :: h4 :: h5 :: u :: fc :: pdu) !! 6%nat) with (Some u).
  change ((h0 :: h1 :: h2 :: h3 :: h4 :: h5 :: u :: fc :: pdu) !! 7%nat) with (Some fc).
  cbv beta iota zeta. cbn [drop]. rewrite drop_0, Hfound.
  unfold GetNode. destruct (node this !! u) as [reg|]; [|reflexivity].
  destruct (match found with Some handle => handle pdu reg | None => _ end)
    as [[[[rsp [[code|]|]]|] reg1] calls]; rewrite ?responseAdu_answer; reflexivity.
Qed.

Lemma dispatch_short (this : TCPServer R) (requestAdu : list byte) :
  (length requestAdu < 8)%nat → dispatch this requestAdu = (Fault, this, []).
Proof.
  intros H.
  destruct requestAdu as [|h0 [|h1 [|h2 [|h3 [|h4 [|h5 [|u [|fc pdu]]]]]]]];
    try reflexivity.
  simpl length in H. lia.
Qed.

Lemma AddNode_same (this : TCPServer R) (u : byte) (reg : R) :
  node this !! u = Some reg → AddNode this u reg = this.
Proof.
  intros H. destruct this as [n p h]. unfold AddNode. cbn in *.
  rewrite insert_id by exact H. reflexivity.
Qed.

Lemma exceptionCode_bits (fc : byte) :
  Z.testbit (byte.unsigned (exceptionCode fc)) 7 = true
  ∧ Z.land (byte.unsigned (exceptionCode fc)) 0x7F = Z.land (byte.unsigned fc) 0x7F.
Proof. destruct fc; split; reflexivity. Qed.

Lemma answer_fields (h0 h1 h2 h3 u fc : byte) (rsp : list byte) :
  let b := answer h0 h1 h2 h3 u fc rsp in
  drop 8 b = rsp
  ∧ BigEndian.Uint16 (drop 4 b) = Some ((2 + len rsp) mod 65536)
  ∧ take 4 b = [h0; h1; h2; h3]
  ∧ b !! 6%nat = Some u
  ∧ b !! 7%nat = Some fc.
Proof.
  unfold answer, BigEndian.PutUint16. cbn [app drop take]. repeat split.
  rewrite Uint16_cons, !unsigned_uint8.
  change (uint8 ?x :: uint8 ?y :: ?l) with (BigEndian.PutUint16 y ++ l).
  pose proof (Uint16_PutUint16 (uint16 (2 + len rsp)) (u :: fc :: rsp)) as H.
  unfold BigEndian.PutUint16 in H. cbn [app] in H. rewrite Uint16_cons, !unsigned_uint8 in H.
  rewrite H. unfold uint16. change (2 ^ 16) with 65536. rewrite Z.mod_mod by lia. reflexivity.
Qed.

(** ** The frame loop on a complete frame *)

Lemma world_eta (w : World R) :
  {| srv := srv w; conn := conn w; journal := journal w ++ [] |} = w.
Proof. destruct w. cbn. rewrite app_nil_r. reflexivity. Qed.

Lemma header_bytes (hdr : list byte) :
  length hdr = 7%nat → ∃ h0 h1 h2 h3 h4 h5 u, hdr = [h0; h1; h2; h3; h4; h5; u].
Proof.
  destruct hdr as [|h0 [|h1 [|h2 [|h3 [|h4 [|h5 [|u [|x l]]]]]]]]; try discriminate.
  intros _. eauto 10.
Qed.

Lemma readFrame_complete (wfuel fuel : nat) (w : World R) (hdr body rest : list byte) :
  framed hdr body → len (hdr ++ body) ≤ pool (srv w) → rx (conn w) = hdr ++ body ++ rest →
  readFrame wfuel (S (S (S fuel))) w tcpHeaderMbapSize 0 []
  = afterFrame (frameHandler wfuel (received w rest) (hdr ++ body)).
Proof.
  intros (Hlen & Hpid & Hdecl) Hpool Hrx.
  destruct (header_bytes hdr Hlen) as (h0 & h1 & h2 & h3 & h4 & h5 & u & ->).
  cbn [drop] in Hpid, Hdecl. rewrite Uint16_cons in Hpid, Hdecl.
  injection Hpid as Hpid. injection Hdecl as Hdecl.
  assert (Hhdr : len [h0; h1; h2; h3; h4; h5; u] = 7) by reflexivity.
  assert (Hall : len ([h0; h1; h2; h3; h4; h5; u] ++ body) = 7 + len body).
  { unfold len. rewrite length_app. simpl length. lia. }
  pose proof (len_nonneg body) as Hbody.
  unfold tcpHeaderMbapSize.
  rewrite (readFrame_read wfuel _ w 7 0 [] [h0; h1; h2; h3; h4; h5; u] (body ++ rest));
    [|lia|lia|exact Hrx|reflexivity].
  cbn [app drop]. rewrite !Uint16_cons, Hpid, Hdecl.
  change (negb (tcpProtocolIdentifier =? tcpProtocolIdentifier)) with false. cbv iota.
  unfold tcpHeaderMbapSize.
  destruct body as [|x body].
  - change (7 =? 1 + len [] + 7 - 1) with true. cbv iota.
    change (take (Z.to_nat (1 + len [] + 7 - 1)) [h0; h1; h2; h3; h4; h5; u])
      with [h0; h1; h2; h3; h4; h5; u].
    cbn [app].
    destruct (frameHandler wfuel (received w rest) _) as [[[e|]|] w2]; reflexivity.
  - rewrite len_cons in *. pose proof (len_nonneg body) as Hbody'.
    replace (7 =? 1 + (1 + len body) + 7 - 1) with false by (symmetry; apply Z.eqb_neq; lia).
    rewrite (readFrame_read wfuel _ _ _ 7 _ (x :: body) rest);
      [|lia|cbn; lia|reflexivity|rewrite len_cons; lia].
    cbn [app drop]. rewrite !Uint16_cons, Hpid, Hdecl.
    change (negb (tcpProtocolIdentifier =? tcpProtocolIdentifier)) with false. cbv iota.
    unfold tcpHeaderMbapSize. rewrite Z.eqb_refl.
    rewrite (take_ge (h0 :: _)).
    2:{ simpl length. unfold len. lia. }
    change (received (received w (x :: body ++ rest)) rest) with (received w rest).
    destruct (frameHandler wfuel (received w rest) _) as [[[e|]|] w2]; try reflexivity.
    cbn [afterFrame]. apply readFrame_exit. lia.
Qed.

Lemma handlerModbus_frame (k fuel : nat) (ctxDone : nat → bool) (i : nat) (w : World R)
    (hdr body rest : list byte) :
  framed hdr body → len (hdr ++ body) ≤ tcpAduMaxSize → pool (srv w) = tcpAduMaxSize →
  rx (conn w) = hdr ++ body ++ rest → ctxDone i = false →
  handlerModbus (S (S (S k))) (S fuel) ctxDone i w
  = afterServed (S (S (S k))) fuel ctxDone i
      (frameHandler (S (S (S k))) (received w rest) (hdr ++ body)).
Proof.
  intros Hframed Hlen Hpool Hrx Hctx. cbn [handlerModbus]. rewrite Hctx, Hpool.
  change (tcpAduMaxSize <? tcpAduMaxSize) with false. cbv iota.
  rewrite (readFrame_complete _ _ w hdr body rest Hframed); [|lia|exact Hrx].
  destruct (frameHandler _ _ _) as [[[e|]|] w2]; reflexivity.
Qed.

Lemma dispatch_Reply (this this1 : TCPServer R) (requestAdu b : list byte) (calls : list Call) :
  dispatch this requestAdu = (Reply b, this1, calls) →
  ∃ h0 h1 h2 h3 h4 h5 u fc pdu fc1 rsp,
    requestAdu = h0 :: h1 :: h2 :: h3 :: h4 :: h5 :: u :: fc :: pdu
    ∧ b = answer h0 h1 h2 h3 u fc1 rsp.
Proof.
  intros H.
  destruct (decide (length requestAdu < 8)%nat) as [Hshort|Hlong].
  { rewrite dispatch_short in H by exact Hshort. discriminate. }
  destruct requestAdu as [|h0 [|h1 [|h2 [|h3 [|h4 [|h5 [|u [|fc pdu]]]]]]]];
    simpl length in Hlong; try lia. clear Hlong.
  rewrite (dispatch_frame _ _ _ _ _ _ _ _ _ _ _ eq_refl) in H.
  destruct (node this !! u) as [reg|]; [|discriminate].
  destruct (function (handler this) !! fc) as [handle|].
  - destruct (handle pdu reg) as [[[[rsp [[code|]|]]|] reg1] calls1]; try discriminate;
      injection H as <- _ _; eauto 20.
  - injection H as <- _ _. eauto 20.
Qed.

(** C4, amended.  Whenever [frameHandler] builds a reply, its MBAP length
    field is [2 + len] of the response PDU data (the bytes after the
    function code) reduced modulo 65536, hence exactly [2 + len] for a PDU
    of at most 65533 bytes; transaction id, protocol id and slave id are
    those of the request. *)
Theorem response_header (this this1 : TCPServer R) (requestAdu b : list byte)
    (calls : list Call) :
  dispatch this requestAdu = (Reply b, this1, calls) →
  BigEndian.Uint16 (drop 4 b) = Some ((2 + len (drop 8 b)) mod 65536)
  ∧ (len (drop 8 b) ≤ 65533 → BigEndian.Uint16 (drop 4 b) = Some (2 + len (drop 8 b)))
  ∧ BigEndian.Uint16 b = BigEndian.Uint16 requestAdu
  ∧ BigEndian.Uint16 (drop 2 b) = BigEndian.Uint16 (drop 2 requestAdu)
  ∧ b !! 6%nat = requestAdu !! 6%nat.
Proof.
  intros H.
  destruct (dispatch_Reply _ _ _ _ _ H)
    as (h0 & h1 & h2 & h3 & h4 & h5 & u & fc & pdu & fc1 & rsp & -> & ->).
  destruct (answer_fields h0 h1 h2 h3 u fc1 rsp) as (Hpdu & Hlen & _ & Hu & _).
  cbv zeta in Hpdu, Hlen, Hu. rewrite Hpdu, Hlen. split; [reflexivity|]. split.
  - intros Hsmall. rewrite Z.mod_small; [reflexivity|]. pose proof (len_nonneg rsp). lia.
  - split; [|split]; [reflexivity|reflexivity|exact Hu].
Qed.

(** C9.  A request for a registered slave whose function code has no handler
    is answered with the request's transaction id, protocol id and slave id,
    the length 3, the function code with bit 0x80 set (its other bits
    unchanged) and the one byte Exception Code 1; no backend call is made and
    these nine bytes are what goes out on the connection. *)
Theorem unknown_function_reply (this : TCPServer R) (h0 h1 h2 h3 h4 h5 u fc : byte)
    (pdu : list byte) (reg : R) :
  node this !! u = Some reg → function (handler this) !! fc = None →
  let requestAdu := h0 :: h1 :: h2 :: h3 :: h4 :: h5 :: u :: fc :: pdu in
  let b := [h0; h1; h2; h3; Byte.x00; Byte.x03; u; exceptionCode fc;
            ExceptionCodeIllegalFunction] in
  dispatch this requestAdu = (Reply b, this, [])
  ∧ Z.testbit (byte.unsigned (exceptionCode fc)) 7 = true
  ∧ Z.land (byte.unsigned (exceptionCode fc)) 0x7F = Z.land (byte.unsigned fc) 0x7F
  ∧ ∀ (k : nat) (w : World R),
      srv w = this → txFault (conn w) = [] →
      frameHandler (S (S k)) w requestAdu
      = (Some None, {| srv := this; conn := wrote (conn w) b; journal := journal w |}).
Proof.
  intros Hnode Hfn requestAdu b.
  assert (Hd : dispatch this requestAdu = (Reply b, this, [])).
  { unfold requestAdu. rewrite (dispatch_frame _ _ _ _ _ _ _ _ _ _ _ Hfn), Hnode.
    rewrite (AddNode_same this u reg Hnode). reflexivity. }
  split; [exact Hd|]. split; [apply exceptionCode_bits|]. split; [apply exceptionCode_bits|].
  intros k w Hsrv Htx. unfold frameHandler. rewrite Hsrv, Hd.
  rewrite (writeAll_all k (conn w) b Htx), app_nil_r. reflexivity.
Qed.


(** C5.  A fully framed request for a slave id that is not in the node map
    is dropped: dispatching ends before any handler is looked up, with no
    backend call and the server unchanged; [frameHandler] returns nil and
    leaves the connection and the journal as they were, so no byte is
    written; and the worker goes on with the bytes after the frame. *)
Theorem unknown_slave_dropped (k fuel : nat) (ctxDone : nat → bool) (i : nat) (w : World R)
    (hdr body rest : list byte) (u : byte) :
  framed hdr body → len (hdr ++ body) ≤ tcpAduMaxSize → pool (srv w) = tcpAduMaxSize →
  hdr !! 6%nat = Some u → node (srv w) !! u = None →
  rx (conn w) = hdr ++ body ++ rest → ctxDone i = false →
  (∃ d, dispatch (srv w) (hdr ++ body) = (d, srv w, []) ∧ (d = Ignored ∨ d = Fault))
  ∧ frameHandler (S (S (S k))) (received w rest) (hdr ++ body) = (Some None, received w rest)
  ∧ handlerModbus (S (S (S k))) (S fuel) ctxDone i w
    = handlerModbus (S (S (S k))) fuel ctxDone (S i) (received w rest).
Proof.
  intros Hframed Hlen Hpool Hu Hnode Hrx Hctx.
  assert (Hd : ∃ d, dispatch (srv w) (hdr ++ body) = (d, srv w, [])
                    ∧ (d = Ignored ∨ d = Fault)).
  { destruct Hframed as (H7 & _ & _).
    destruct (header_bytes hdr H7) as (h0 & h1 & h2 & h3 & h4 & h5 & u' & ->).
    injection Hu as ->. destruct body as [|fc pdu]; cbn [app].
    - exists Fault. rewrite dispatch_short by (simpl length; lia). auto.
    - exists Ignored. rewrite (dispatch_frame _ _ _ _ _ _ _ _ _ _ _ eq_refl), Hnode. auto. }
  assert (Hdrop : frameHandler (S (S (S k))) (received w rest) (hdr ++ body)
                  = (Some None, received w rest)).
  { destruct Hd as (d & Hd & Hcase). unfold frameHandler.
    change (srv (received w rest)) with (srv w). rewrite Hd.
    destruct Hcase as [-> | ->]; f_equal; exact (world_eta (received w rest)). }
  split; [exact Hd|]. split; [exact Hdrop|].
  rewrite (handlerModbus_frame k fuel ctxDone i w hdr body rest Hframed Hlen Hpool Hrx Hctx).
  rewrite Hdrop. reflexivity.
Qed.

Lemma readFrame_header (wfuel fuel : nat) (w : World R) (hdr rest : list byte) :
  length hdr = 7%nat → tcpHeaderMbapSize ≤ pool (srv w) → rx (conn w) = hdr ++ rest →
  readFrame wfuel (S fuel) w tcpHeaderMbapSize 0 []
  = match BigEndian.Uint16 (drop 2 hdr), BigEndian.Uint16 (drop 4 hdr) with
    | Some protocolID, Some declared =>
        if negb (protocolID =? tcpProtocolIdentifier) then (FrameNext, received w rest)
        else if tcpHeaderMbapSize =? declared + tcpHeaderMbapSize - 1 then
          match frameHandler wfuel (received w rest)
                  (take (Z.to_nat (declared + tcpHeaderMbapSize - 1)) hdr) with
          | (Some None, w2) =>
              readFrame wfuel fuel w2 (declared + tcpHeaderMbapSize - 1) tcpHeaderMbapSize hdr
          | (Some (Some _), w2) => (FrameReturn, w2)
          | (None, w2) => (FrameFuel, w2)
          end
        else readFrame wfuel fuel (received w rest) (declared + tcpHeaderMbapSize - 1)
               tcpHeaderMbapSize hdr
    | _, _ => (FramePanic, received w rest)
    end.
Proof.
  intros H7 Hpool Hrx.
  rewrite (readFrame_read wfuel fuel w tcpHeaderMbapSize 0 [] hdr rest);
    [reflexivity|reflexivity|exact Hpool|exact Hrx|].
  unfold len. rewrite H7. reflexivity.
Qed.


(** C2.  The slice bound of the frame loop is not kept within the pooled
    buffer: after a header with protocol id 0 whose declared length plus 6
    exceeds the buffer capacity (any declared length above 254 for the
    260-byte buffer), the next turn of the loop slices [adu[rdCnt:length]]
    past the capacity.  The fault happens outside [frameHandler], so nothing
    recovers it and the worker dies. *)
Theorem oversized_length_faults (k fuel : nat) (ctxDone : nat → bool) (i : nat) (w : World R)
    (hdr rest : list byte) (declared : Z) :
  length hdr = 7%nat →
  BigEndian.Uint16 (drop 2 hdr) = Some tcpProtocolIdentifier →
  BigEndian.Uint16 (drop 4 hdr) = Some declared →
  tcpAduMaxSize ≤ pool (srv w) → pool (srv w) < declared + 6 →
  rx (conn w) = hdr ++ rest → ctxDone i = false →
  readFrame (S (S k)) (S (S k)) w tcpHeaderMbapSize 0 [] = (FramePanic, received w rest)
  ∧ handlerModbus (S (S k)) (S fuel) ctxDone i w = (Crashed, received w rest).
Proof.
  intros H7 Hpid Hdecl Hpool Hover Hrx Hctx.
  assert (Hframe : readFrame (S (S k)) (S (S k)) w tcpHeaderMbapSize 0 []
                   = (FramePanic, received w rest)).
  { rewrite (readFrame_header _ _ w hdr rest H7); [|unfold tcpHeaderMbapSize, tcpAduMaxSize in *; lia|exact Hrx].
    rewrite Hpid, Hdecl.
    change (negb (tcpProtocolIdentifier =? tcpProtocolIdentifier)) with false. cbv iota.
    unfold tcpHeaderMbapSize, tcpAduMaxSize in *.
    replace (7 =? declared + 7 - 1) with false by (symmetry; apply Z.eqb_neq; lia).
    apply readFrame_fault; [lia|]. change (pool (srv (received w rest))) with (pool (srv w)). lia. }
  split; [exact Hframe|].
  cbn [handlerModbus]. rewrite Hctx.
  replace (pool (srv w) <? tcpAduMaxSize) with false by (symmetry; apply Z.ltb_ge; exact Hpool).
  rewrite Hframe. reflexivity.
Qed.
End Properties.

(** * The properties on concrete requests *)

(** C8 at a request for two holding registers from address 0. *)
Lemma readRegisters_response_witness :
  readRegisters (hex [0; 0; 0; 2]) true node16
  = (Some (Some (hex [4; 0; 0; 0; 0]), None), node16, [CallReadHoldingsBytes 0 2]).
Proof.
  destruct (proj2 (readRegisters_response (hex [0; 0; 0; 2]) true node16) eq_refl)
    as (address & qty & Ha & Hq & _ & Hok).
  vm_compute in Ha, Hq. injection Ha as <-. injection Hq as <-.
  exact (proj1 (Hok ltac:(lia) (hex [0; 0; 0; 0]) node16 eq_refl)).
Defined.

(** C7 at a request to write 1969 coils. *)
Lemma writeMultiple_refused_witness :
  funcWriteMultiCoils (hex [0; 0; 7; 177; 247; 0]) node16 = refused node16.
Proof.
  apply (proj1 (proj2 (writeMultiple_refused (hex [0; 0; 7; 177; 247; 0]) node16))
           1969 (uint8 247)).
  - reflexivity.
  - reflexivity.
  - right. left. lia.
Defined.

Lemma readWrite_write_then_read_witness :
  funcReadWriteMultiHoldingRegisters rwRequest node16
  = (Some (Some (hex [4; 0; 0; 0; 10]), None),
     snd (nodeWriteHoldingsBytes 1 2 (hex [0; 10; 1; 2]) node16),
     [CallWriteHoldingsBytes 1 2 (hex [0; 10; 1; 2]); CallReadHoldingsBytes 0 2]).
Proof.
  refine (proj1 (readWrite_write_then_read rwRequest node16 0 2 1 2 (uint8 4)
                   _ _ _ _ _ _ _ _ _)).
  - vm_compute. discriminate.
  - reflexivity.
  - reflexivity.
  - reflexivity.
  - reflexivity.
  - reflexivity.
  - lia.
  - lia.
  - reflexivity.
Defined.

Lemma readWrite_skips_read :
  funcReadWriteMultiHoldingRegisters rwRequestBad node16
  = (Some (None, Some (ExceptionError ExceptionCodeIllegalDataAddress)), node16,
     [CallWriteHoldingsBytes 99 1 (hex [0; 7])])
  ∧ nodeReadHoldingsBytes 0 2 node16 = (hex [0; 0; 0; 0], None, node16).
Proof. split; reflexivity. Qed.



Lemma oversized_length_faults_witness :
  handlerModbus 2 1 never 0 (world1 (hex [0; 1; 0; 0; 255; 255; 1; 3; 0; 0; 0; 2]))
  = (Crashed, received (world1 (hex [0; 1; 0; 0; 255; 255; 1; 3; 0; 0; 0; 2]))
                (hex [3; 0; 0; 0; 2])).
Proof.
  refine (proj2 (oversized_length_faults 0 0 never 0
                   (world1 (hex [0; 1; 0; 0; 255; 255; 1; 3; 0; 0; 0; 2]))
                   (hex [0; 1; 0; 0; 255; 255; 1]) (hex [3; 0; 0; 0; 2]) 65535
                   _ _ _ _ _ _ _)).
  - reflexivity.
  - reflexivity.
  - reflexivity.
  - vm_compute. discriminate.
  - reflexivity.
  - reflexivity.
  - reflexivity.
Defined.

Lemma response_header_witness :
  BigEndian.Uint16 (drop 4 readResponse) = Some (2 + len (drop 8 readResponse))
  ∧ BigEndian.Uint16 readResponse = BigEndian.Uint16 readRequest
  ∧ BigEndian.Uint16 (drop 2 readResponse) = BigEndian.Uint16 (drop 2 readRequest)
  ∧ readResponse !! 6%nat = readRequest !! 6%nat.
Proof.
  destruct (response_header server1 (snd (fst (dispatch server1 readRequest)))
              readRequest readResponse (snd (dispatch server1 readRequest)))
    as (_ & Hlen & Hfields).
  - reflexivity.
  - split; [apply Hlen; vm_compute; discriminate | exact Hfields].
Defined.

(** C4 fails for a reply of 65534 PDU bytes: the length field reads 0. *)
Lemma bulk_length_wraps :
  let b := answer Byte.x00 Byte.x01 Byte.x00 Byte.x00 slave1 Byte.x41
             (repeat Byte.x00 (Z.to_nat 65534)) in
  dispatch server2 (hex [0; 1; 0; 0; 0; 2; 1; 65])
  = (Reply b, AddNode server2 slave1 node16, [])
  ∧ len (drop 8 b) = 65534
  ∧ BigEndian.Uint16 (drop 4 b) = Some 0.
Proof.
  intros b.
  destruct (answer_fields Byte.x00 Byte.x01 Byte.x00 Byte.x00 slave1 Byte.x41
              (repeat Byte.x00 (Z.to_nat 65534))) as (Hpdu & Hlen & _).
  cbv zeta in Hpdu, Hlen. fold b in Hpdu, Hlen.
  assert (Hbulk : len (repeat Byte.x00 (Z.to_nat 65534)) = 65534).
  { unfold len. rewrite repeat_length. reflexivity. }
  split; [|split].
  - change (hex [0; 1; 0; 0; 0; 2; 1; 65])
      with [Byte.x00; Byte.x01; Byte.x00; Byte.x00; Byte.x00; Byte.x02; slave1; Byte.x41].
    assert (Hfound : function (handler server2) !! Byte.x41 = Some bulk) by reflexivity.
    rewrite (dispatch_frame server2 _ _ _ _ _ _ _ _ _ _ Hfound).
    reflexivity.
  - rewrite Hpdu. exact Hbulk.
  - rewrite Hlen, Hbulk. reflexivity.
Qed.

Lemma unknown_function_reply_witness :
  dispatch server1 (hex [0; 1; 0; 0; 0; 6; 1; 99; 0; 0; 0; 2])
  = (Reply (hex [0; 1; 0; 0; 0; 3; 1; 227; 1]), server1, []).
Proof.
  refine (proj1 (unknown_function_reply server1 Byte.x00 Byte.x01 Byte.x00 Byte.x00
                   Byte.x00 Byte.x06 slave1 Byte.x63 (hex [0; 0; 0; 2]) node16 _ _)).
  - reflexivity.
  - reflexivity.
Defined.


Lemma unknown_slave_dropped_witness :
  handlerModbus 3 1 never 0 (world1 (hex [0; 1; 0; 0; 0; 6; 9; 3; 0; 0; 0; 2] ++ readRequest))
  = handlerModbus 3 0 never 1
      (received (world1 (hex [0; 1; 0; 0; 0; 6; 9; 3; 0; 0; 0; 2] ++ readRequest))
         readRequest).
Proof.
  refine (proj2 (proj2 (unknown_slave_dropped 0 0 never 0
                   (world1 (hex [0; 1; 0; 0; 0; 6; 9; 3; 0; 0; 0; 2] ++ readRequest))
                   (hex [0; 1; 0; 0; 0; 6; 9]) (hex [3; 0; 0; 0; 2]) readRequest Byte.x09
                   _ _ _ _ _ _ _))).
  - repeat split; reflexivity.
  - vm_compute. discriminate.
  - reflexivity.
  - reflexivity.
  - reflexivity.
  - reflexivity.
  - reflexivity.
Defined.


(** * More properties of the handlers, the registry and the worker *)

Section MoreProperties.
Context {R : Type} {NR : NodeRegister R}.

Lemma fields_4 (data : list byte) :
  len data = 4 →
  ∃ x y, BigEndian.Uint16 data = Some x ∧ BigEndian.Uint16 (drop 2 data) = Some y.
Proof.
  intros H. destruct (len_4 data H) as (a & b & c & d & ->).
  eexists _, _. split; apply Uint16_cons.
Qed.

Lemma len_eqb_false (data : list byte) (n : Z) : len data ≠ n → (len data =? n) = false.
Proof. intros H. apply Z.eqb_neq. exact H. Qed.

(** X1.  Read Coils and Read Discrete Inputs ([readBits]).  A request whose
    data is not exactly four bytes, or whose quantity lies outside [1,2000],
    gets Exception Code 3 and the backend is not called.  Otherwise the one
    backend read decides: its error is returned as it is, and on success the
    response is the bytes read, preceded by their number reduced to a byte
    (the length of what the backend returned, modulo 256). *)
Theorem readBits_response (data : list byte) (isCoil : bool) (r : R) :
  (len data ≠ 4 → readBits data isCoil r = refused r)
  ∧ (len data = 4 →
     ∃ address qty,
       BigEndian.Uint16 data = Some address
       ∧ BigEndian.Uint16 (drop 2 data) = Some qty
       ∧ ((qty < 1 ∨ 2000 < qty) → readBits data isCoil r = refused r)
       ∧ (1 ≤ qty ≤ 2000 →
          ∀ value err r1,
            nodeReadBits isCoil address qty r = (value, err, r1) →
            readBits data isCoil r
            = (Some (readResult (uint8 (len value)) value err), r1,
               [bitsCall isCoil address qty])
            ∧ byte.unsigned (uint8 (len value)) = len value mod 256)).
Proof.
  split.
  - intros Hlen. unfold readBits, FuncReadMinSize. rewrite (len_eqb_false _ _ Hlen). reflexivity.
  - intros Hlen. destruct (fields_4 data Hlen) as (address & qty & Ha & Hq).
    exists address, qty. split; [exact Ha|]. split; [exact Hq|].
    unfold readBits, FuncReadMinSize. rewrite Hlen. cbn [Z.eqb Pos.eqb negb].
    rewrite (bind_must _ _ _ _ Ha), (bind_must _ _ _ _ Hq).
    unfold ReadBitsQuantityMin, ReadBitsQuantityMax. split.
    + intros Hbad. replace ((qty <? 1) || (qty >? 2000)) with true; [reflexivity|].
      symmetry. apply orb_true_iff. rewrite Z.gtb_ltb, !Z.ltb_lt. lia.
    + intros Hok value err r1 Hread.
      replace ((qty <? 1) || (qty >? 2000)) with false
        by (symmetry; apply orb_false_iff; rewrite Z.gtb_ltb, !Z.ltb_ge; lia).
      split; [|apply unsigned_uint8].
      unfold nodeReadBits, bitsCall in *.
      destruct isCoil; unfold ReadCoils, ReadDiscretes;
        rewrite (bind_call _ _ _ _ _ _ Hread); destruct err; reflexivity.
Qed.

(** X2.  A failing backend read of Read Holding Registers or Read Input
    Registers is passed on: the handler returns a nil response and the very
    error of the backend, after that one call. *)
Theorem readRegisters_error (data : list byte) (isHolding : bool) (r r1 : R)
    (address qty : Z) (value : list byte) (e : error) :
  len data = 4 →
  BigEndian.Uint16 data = Some address → BigEndian.Uint16 (drop 2 data) = Some qty →
  1 ≤ qty ≤ 125 →
  nodeRead isHolding address qty r = (value, Some e, r1) →
  readRegisters data isHolding r = (Some (None, Some e), r1, [readCall isHolding address qty]).
Proof.
  intros Hlen Ha Hq Hok Hread.
  unfold readRegisters, FuncReadMinSize. rewrite Hlen. cbn [Z.eqb Pos.eqb negb].
  rewrite (bind_must _ _ _ _ Ha), (bind_must _ _ _ _ Hq).
  unfold ReadRegQuantityMin, ReadRegQuantityMax.
  replace ((qty >? 125) || (qty <? 1)) with false
    by (symmetry; apply orb_false_iff; rewrite Z.gtb_ltb, !Z.ltb_ge; lia).
  unfold nodeRead, readCall in *.
  destruct isHolding; unfold ReadHoldingsBytes, ReadInputsBytes;
    rewrite (bind_call _ _ _ _ _ _ Hread); reflexivity.
Qed.

(** X3.  Write Single Coil.  Data of a length other than four, or a value
    other than 0xFF00 and 0x0000, gets Exception Code 3 without a backend
    call.  Otherwise one coil is written, bit 1 for 0xFF00 and bit 0 for
    0x0000, and the request bytes are returned with whatever the write
    returned. *)
Theorem funcWriteSingleCoil_writes (data : list byte) (r : R) :
  (len data ≠ 4 → funcWriteSingleCoil data r = refused r)
  ∧ (len data = 4 →
     ∃ address value,
       BigEndian.Uint16 data = Some address
       ∧ BigEndian.Uint16 (drop 2 data) = Some value
       ∧ (value ≠ 0xFF00 → value ≠ 0x0000 → funcWriteSingleCoil data r = refused r)
       ∧ (value = 0xFF00 ∨ value = 0x0000 →
          ∀ err r1,
            let bit := if value =? 0xFF00 then Byte.x01 else Byte.x00 in
            nodeWriteCoils address 1 [bit] r = (err, r1) →
            funcWriteSingleCoil data r
            = (Some (Some data, err), r1, [CallWriteCoils address 1 [bit]]))).
Proof.
  split.
  - intros Hlen. unfold funcWriteSingleCoil, FuncWriteMinSize.
    rewrite (len_eqb_false _ _ Hlen). reflexivity.
  - intros Hlen. destruct (fields_4 data Hlen) as (address & value & Ha & Hv).
    exists address, value. split; [exact Ha|]. split; [exact Hv|].
    unfold funcWriteSingleCoil, FuncWriteMinSize. rewrite Hlen. cbn [Z.eqb Pos.eqb negb].
    rewrite (bind_must _ _ _ _ Ha), (bind_must _ _ _ _ Hv). split.
    + intros H1 H2. rewrite (proj2 (Z.eqb_neq _ _) H1), (proj2 (Z.eqb_neq _ _) H2). reflexivity.
    + intros Hval err r1. cbv zeta. intros Hwrite.
      set (bit := if value =? 65280 then Byte.x01 else Byte.x00) in *.
      replace (negb ((value =? 65280) || (value =? 0))) with false.
      2:{ symmetry. apply negb_false_iff, orb_true_iff. rewrite !Z.eqb_eq. exact Hval. }
      unfold WriteCoils.
      replace (if value =? 65280 then uint8 1 else uint8 0) with bit
        by (unfold bit; destruct (value =? 65280); reflexivity).
      rewrite (bind_call _ _ _ _ _ _ Hwrite). reflexivity.
Qed.

Lemma len_ltb_false (data : list byte) (n : Z) : n ≤ len data → (len data <? n) = false.
Proof. intros H. apply Z.ltb_ge. exact H. Qed.

Lemma field_4_len (data : list byte) (b : byte) : data !! 4%nat = Some b → 5 ≤ len data.
Proof.
  intros H. apply lookup_lt_Some in H. unfold len. lia.
Qed.

(** X4.  Write Multiple Coils on a request whose quantity is in [1,1968]
    and whose byte count is [(qty + 7) / 8]: the bytes after the byte count,
    however many they are, go to one backend write, and the first four bytes
    of the request come back with whatever the write returned. *)
Theorem funcWriteMultiCoils_writes (data : list byte) (r r1 : R) (address qty : Z)
    (byteCnt : byte) (err : option error) :
  BigEndian.Uint16 data = Some address → BigEndian.Uint16 (drop 2 data) = Some qty →
  data !! 4%nat = Some byteCnt →
  1 ≤ qty ≤ 1968 → byte.unsigned byteCnt = (qty + 7) / 8 →
  nodeWriteCoils address qty (drop 5 data) r = (err, r1) →
  funcWriteMultiCoils data r
  = (Some (Some (take 4 data), err), r1, [CallWriteCoils address qty (drop 5 data)]).
Proof.
  intros Ha Hq Hb Hok Hcnt Hwrite.
  unfold funcWriteMultiCoils, FuncWriteMultiMinSize.
  rewrite (len_ltb_false _ _ (field_4_len _ _ Hb)).
  rewrite (bind_must _ _ _ _ Ha), (bind_must _ _ _ _ Hq), (bind_must _ _ _ _ Hb).
  unfold WriteBitsQuantityMin, WriteBitsQuantityMax.
  replace ((qty <? 1) || (qty >? 1968) || negb (bool_decide (byteCnt = uint8 (uint16 (qty + 7) / 8))))
    with false.
  2:{ symmetry. rewrite Z.gtb_ltb, !orb_false_iff, !Z.ltb_ge, negb_false_iff.
      repeat split; try lia. apply bool_decide_eq_true_2, byte.unsigned_inj.
      unfold uint16. rewrite (Z.mod_small (qty + 7)) by lia.
      rewrite unsigned_uint8_small; [exact Hcnt|].
      split; [apply Z.div_pos; lia|]. apply Z.div_lt_upper_bound; lia. }
  unfold WriteCoils. rewrite (bind_call _ _ _ _ _ _ Hwrite). reflexivity.
Qed.

(** X5.  Write Single Register.  Data of a length other than four gets
    Exception Code 3 without a backend call.  Otherwise the last two bytes
    are written as one word at the address, and the request bytes are
    returned with whatever the write returned. *)
Theorem funcWriteSingleRegister_writes (data : list byte) (r : R) :
  (len data ≠ 4 → funcWriteSingleRegister data r = refused r)
  ∧ (len data = 4 →
     ∃ address,
       BigEndian.Uint16 data = Some address
       ∧ ∀ err r1,
           nodeWriteHoldingsBytes address 1 (drop 2 data) r = (err, r1) →
           funcWriteSingleRegister data r
           = (Some (Some data, err), r1, [CallWriteHoldingsBytes address 1 (drop 2 data)])).
Proof.
  split.
  - intros Hlen. unfold funcWriteSingleRegister, FuncWriteMinSize.
    rewrite (len_eqb_false _ _ Hlen). reflexivity.
  - intros Hlen. destruct (fields_4 data Hlen) as (address & value & Ha & _).
    exists address. split; [exact Ha|]. intros err r1 Hwrite.
    unfold funcWriteSingleRegister, FuncWriteMinSize. rewrite Hlen. cbn [Z.eqb Pos.eqb negb].
    rewrite (bind_must _ _ _ _ Ha). unfold WriteHoldingsBytes.
    rewrite (bind_call _ _ _ _ _ _ Hwrite). reflexivity.
Qed.

Lemma take_2_PutUint16 (data : list byte) (count : Z) :
  BigEndian.Uint16 (drop 2 data) = Some count →
  take 2 data ++ BigEndian.PutUint16 count = take 4 data.
Proof.
  destruct data as [|a [|b [|c [|d rest]]]]; try discriminate.
  cbn [drop take]. intros H. rewrite (PutUint16_Uint16 _ _ _ _ H). reflexivity.
Qed.

(** X6.  Write Multiple Registers on a request whose count is in [1,123]
    and whose byte count is twice the count: the bytes after the byte count
    go to one backend write; its error is returned with a nil response, and
    on success the response is the first four bytes of the request (storing
    the count back over them changes nothing). *)
Theorem funcWriteMultiHoldingRegisters_writes (data : list byte) (r r1 : R)
    (address count : Z) (byteCnt : byte) (err : option error) :
  BigEndian.Uint16 data = Some address → BigEndian.Uint16 (drop 2 data) = Some count →
  data !! 4%nat = Some byteCnt →
  1 ≤ count ≤ 123 → byte.unsigned byteCnt = 2 * count →
  nodeWriteHoldingsBytes address count (drop 5 data) r = (err, r1) →
  funcWriteMultiHoldingRegisters data r
  = (Some (match err with
           | Some e => (None, Some e)
           | None => (Some (take 4 data), None)
           end),
     r1, [CallWriteHoldingsBytes address count (drop 5 data)]).
Proof.
  intros Ha Hq Hb Hok Hcnt Hwrite.
  unfold funcWriteMultiHoldingRegisters, FuncWriteMultiMinSize.
  rewrite (len_ltb_false _ _ (field_4_len _ _ Hb)).
  rewrite (bind_must _ _ _ _ Ha), (bind_must _ _ _ _ Hq), (bind_must _ _ _ _ Hb).
  unfold WriteRegQuantityMin, WriteRegQuantityMax.
  replace ((count <? 1) || (count >? 123)
           || negb (bool_decide (byteCnt = uint8 (uint16 (count * 2))))) with false.
  2:{ symmetry. rewrite Z.gtb_ltb, !orb_false_iff, !Z.ltb_ge, negb_false_iff.
      repeat split; try lia. apply bool_decide_eq_true_2, byte.unsigned_inj.
      unfold uint16. rewrite (Z.mod_small (count * 2)) by lia.
      rewrite unsigned_uint8_small; lia. }
  unfold WriteHoldingsBytes. rewrite (bind_call _ _ _ _ _ _ Hwrite).
  destruct err; [reflexivity|]. rewrite (take_2_PutUint16 _ _ Hq). reflexivity.
Qed.

(** X7.  Read/Write Multiple Registers refuses, with Exception Code 3 and
    no backend call, data shorter than nine bytes, a read count outside
    [1,125], a write count outside [1,121], and a write byte count other than
    twice the write count. *)
Theorem funcReadWriteMultiHoldingRegisters_refused (data : list byte) (r : R) :
  (len data < 9 → funcReadWriteMultiHoldingRegisters data r = refused r)
  ∧ ∀ readCount WriteCount writeByteCnt,
      BigEndian.Uint16 (drop 2 data) = Some readCount →
      BigEndian.Uint16 (drop 6 data) = Some WriteCount →
      data !! 8%nat = Some writeByteCnt →
      readCount < 1 ∨ 125 < readCount ∨ WriteCount < 1 ∨ 121 < WriteCount
      ∨ byte.unsigned writeByteCnt ≠ 2 * WriteCount →
      funcReadWriteMultiHoldingRegisters data r = refused r.
Proof.
  split.
  - intros Hlen. unfold funcReadWriteMultiHoldingRegisters, FuncReadWriteMinSize.
    rewrite (proj2 (Z.ltb_lt _ _) Hlen). reflexivity.
  - intros readCount WriteCount writeByteCnt Hrc Hwc Hb Hbad.
    destruct data as [|a0 [|a1 [|a2 [|a3 [|a4 [|a5 [|a6 [|a7 [|a8 rest]]]]]]]]];
      try discriminate.
    injection Hb as ->.
    unfold funcReadWriteMultiHoldingRegisters, FuncReadWriteMinSize.
    rewrite len_ltb_false by (rewrite !len_cons; pose proof (len_nonneg rest); lia).
    rewrite (bind_must _ _ _ _ (Uint16_cons _ _ _)), (bind_must _ _ _ _ Hrc).
    cbn [drop] in Hwc |- *.
    rewrite (bind_must _ _ _ _ (Uint16_cons _ _ _)), (bind_must _ _ _ _ Hwc).
    rewrite (bind_must _ writeByteCnt) by reflexivity.
    pose proof (Uint16_range _ _ Hwc) as Hrange.
    unfold ReadWriteOnReadRegQuantityMin, ReadWriteOnReadRegQuantityMax,
      ReadWriteOnWriteRegQuantityMin, ReadWriteOnWriteRegQuantityMax.
    rewrite !Z.gtb_ltb.
    destruct (Z.ltb_spec readCount 1); [reflexivity|].
    destruct (Z.ltb_spec 125 readCount); [reflexivity|].
    destruct (Z.ltb_spec WriteCount 1); [reflexivity|].
    destruct (Z.ltb_spec 121 WriteCount); [reflexivity|].
    cbn [orb]. rewrite bool_decide_eq_false_2; [reflexivity|].
    intros ->. destruct Hbad as [?|[?|[?|[?|Hbad]]]]; try lia. apply Hbad.
    unfold uint16. rewrite (Z.mod_small (WriteCount * 2)) by lia.
    rewrite unsigned_uint8_small; lia.
Qed.

Lemma len_6 {A : Type} (data : list A) :
  len data = 6 → ∃ a b c d e f, data = [a; b; c; d; e; f].
Proof.
  unfold len. destruct data as [|a [|b [|c [|d [|e [|f [|g l]]]]]]]; simpl length; try lia.
  intros _. eauto 10.
Qed.

(** X8.  Mask Write Register.  Data of a length other than six gets
    Exception Code 3 without a backend call.  Otherwise the address, the AND
    mask and the OR mask go to one backend call, and the request bytes are
    returned with whatever the call returned. *)
Theorem funcMaskWriteRegisters_writes (data : list byte) (r : R) :
  (len data ≠ 6 → funcMaskWriteRegisters data r = refused r)
  ∧ (len data = 6 →
     ∃ referAddress andMask orMask,
       BigEndian.Uint16 data = Some referAddress
       ∧ BigEndian.Uint16 (drop 2 data) = Some andMask
       ∧ BigEndian.Uint16 (drop 4 data) = Some orMask
       ∧ ∀ err r1,
           nodeMaskWriteHolding referAddress andMask orMask r = (err, r1) →
           funcMaskWriteRegisters data r
           = (Some (Some data, err), r1, [CallMaskWriteHolding referAddress andMask orMask])).
Proof.
  split.
  - intros Hlen. unfold funcMaskWriteRegisters, FuncMaskWriteMinSize.
    rewrite (len_eqb_false _ _ Hlen). reflexivity.
  - intros Hlen. destruct (len_6 data Hlen) as (a & b & c & d & e & f & ->).
    eexists _, _, _. split; [apply Uint16_cons|]. split; [apply Uint16_cons|].
    split; [apply Uint16_cons|]. intros err r1 Hwrite.
    unfold funcMaskWriteRegisters.
    change (negb (len [a; b; c; d; e; f] =? FuncMaskWriteMinSize)) with false. cbv iota.
    rewrite (bind_must _ _ _ _ (Uint16_cons _ _ _)). cbn [drop].
    rewrite (bind_must _ _ _ _ (Uint16_cons _ _ _)), (bind_must _ _ _ _ (Uint16_cons _ _ _)).
    unfold MaskWriteHolding. rewrite (bind_call _ _ _ _ _ _ Hwrite). reflexivity.
Qed.

Lemma AddNodes_snoc (slaveID : R → byte) (this : TCPServer R) (nodes : list R) (v : R) :
  AddNodes slaveID this (nodes ++ [v]) = AddNode (AddNodes slaveID this nodes) (slaveID v) v.
Proof. unfold AddNodes. rewrite foldl_app. reflexivity. Qed.

(** X9.  After [AddNodes], looking up an id gives the last of the added
    nodes that carries it, and what was registered before when none does;
    the pool and the handlers are untouched. *)
Theorem AddNodes_last_wins (slaveID : R → byte) (this : TCPServer R) (nodes : list R)
    (id : byte) :
  GetNode (AddNodes slaveID this nodes) id
  = match last (filter (λ v, slaveID v = id) nodes) with
    | Some v => Some v
    | None => GetNode this id
    end
  ∧ pool (AddNodes slaveID this nodes) = pool this
  ∧ handler (AddNodes slaveID this nodes) = handler this.
Proof.
  induction nodes as [|v nodes IH] using rev_ind.
  - repeat split.
  - destruct IH as (IHnode & IHpool & IHhandler).
    rewrite AddNodes_snoc, filter_app. cbn [pool handler AddNode].
    split; [|split; assumption].
    unfold GetNode in *. cbn [node AddNode].
    rewrite filter_cons, filter_nil. destruct (decide (slaveID v = id)) as [Heq|Hne].
    + rewrite last_snoc, Heq, lookup_insert_eq. reflexivity.
    + rewrite app_nil_r, lookup_insert_ne by exact Hne. exact IHnode.
Qed.

Lemma DeleteNodes_lookup (this : TCPServer R) (entries : list (byte * R)) (id : byte) :
  node (foldl (fun this kv => DeleteNode this (fst kv)) this entries) !! id
  = if decide (id ∈ entries.*1) then None else node this !! id.
Proof.
  revert this. induction entries as [|[k v] entries IH]; intros this.
  - cbn. destruct (decide (id ∈ [])) as [H|_]; [|reflexivity].
    apply elem_of_nil in H. contradiction.
  - cbn [foldl fmap list_fmap fst]. rewrite IH. cbn [node DeleteNode].
    destruct (decide (id ∈ entries.*1)) as [Hin|Hnin].
    + rewrite decide_True by (apply elem_of_cons; auto). reflexivity.
    + destruct (decide (id = k)) as [->|Hne].
      * rewrite decide_True by (apply elem_of_cons; auto). apply lookup_delete_eq.
      * rewrite decide_False by (rewrite elem_of_cons; tauto).
        apply lookup_delete_ne. congruence.
Qed.

Lemma DeleteNodes_kept (this : TCPServer R) (entries : list (byte * R)) :
  pool (foldl (fun this kv => DeleteNode this (fst kv)) this entries) = pool this
  ∧ handler (foldl (fun this kv => DeleteNode this (fst kv)) this entries) = handler this.
Proof.
  revert this. induction entries as [|[k v] entries IH]; intros this; [split; reflexivity|].
  cbn [foldl]. destruct (IH (DeleteNode this (fst (k, v)))) as [-> ->]. split; reflexivity.
Qed.

(** X10.  After [DeleteAllNode] no id is registered and the node list is
    empty; the pool and the handlers are untouched. *)
Theorem DeleteAllNode_empties (this : TCPServer R) :
  (∀ id, GetNode (DeleteAllNode this) id = None)
  ∧ GetNodeList (DeleteAllNode this) = []
  ∧ pool (DeleteAllNode this) = pool this
  ∧ handler (DeleteAllNode this) = handler this.
Proof.
  assert (Hnone : ∀ id, node (DeleteAllNode this) !! id = None).
  { intros id. unfold DeleteAllNode. rewrite DeleteNodes_lookup.
    destruct (decide (id ∈ (map_to_list (node this)).*1)) as [_|Hnin]; [reflexivity|].
    destruct (node this !! id) as [v|] eqn:E; [|reflexivity].
    exfalso. apply Hnin. apply list_elem_of_fmap. exists (id, v).
    split; [reflexivity|]. apply elem_of_map_to_list. exact E. }
  split; [exact Hnone|]. split.
  - unfold GetNodeList. replace (node (DeleteAllNode this)) with (∅ : gmap byte R).
    + rewrite map_to_list_empty. reflexivity.
    + symmetry. apply map_empty. exact Hnone.
  - apply DeleteNodes_kept.
Qed.

(** X11.  [GetNodeList] holds exactly the registered nodes, one entry for
    each registered id. *)
Theorem GetNodeList_registered (this : TCPServer R) (v : R) :
  (v ∈ GetNodeList this ↔ ∃ id, GetNode this id = Some v)
  ∧ length (GetNodeList this) = size (node this).
Proof.
  split.
  - unfold GetNodeList, GetNode. rewrite list_elem_of_fmap. split.
    + intros ([k v'] & -> & Hin). exists k. apply elem_of_map_to_list. exact Hin.
    + intros (id & Hid). exists (id, v). split; [reflexivity|].
      apply elem_of_map_to_list. exact Hid.
  - unfold GetNodeList. rewrite length_fmap, length_map_to_list. reflexivity.
Qed.

Lemma rangeOver_recording (f : byte → R → bool) (entries seen0 : list (byte * R)) :
  ∃ seen,
    rangeOver (recording f) entries seen0 = seen0 ++ seen
    ∧ seen `prefix_of` entries
    ∧ (∀ i k v, seen !! i = Some (k, v) → (S i < length seen)%nat → f k v = true)
    ∧ (seen = entries ∨ ∃ k v, last seen = Some (k, v) ∧ f k v = false).
Proof.
  revert seen0. induction entries as [|[k v] entries IH]; intros seen0.
  - exists []. cbn. rewrite app_nil_r. repeat split; auto.
    intros i k v H. rewrite lookup_nil in H. discriminate.
  - cbn [rangeOver recording]. destruct (f k v) eqn:Hf.
    + destruct (IH (seen0 ++ [(k, v)])) as (seen & Heq & Hpre & Hall & Hend).
      exists ((k, v) :: seen). rewrite Heq, <- app_assoc. split; [reflexivity|].
      split; [apply prefix_cons; exact Hpre|]. split.
      * intros [|i] k' v' Hi Hlt.
        -- injection Hi as <- <-. exact Hf.
        -- apply (Hall i); [exact Hi|]. simpl length in Hlt. lia.
      * destruct Hend as [->|(k' & v' & Hlast & Hf')]; [left; reflexivity|].
        right. exists k', v'. split; [|exact Hf'].
        destruct seen as [|x seen]; [discriminate|]. exact Hlast.
    + exists [(k, v)]. split; [reflexivity|].
      split; [apply prefix_cons, prefix_nil|]. split.
      * intros [|i] k' v' Hi Hlt; simpl length in Hlt; lia.
      * right. exists k, v. split; [reflexivity|exact Hf].
Qed.

(** X12.  [Range] calls the visitor on registered (id, node) pairs only,
    on no id twice, goes on as long as the visitor returns true, and either
    visits every entry or stops right after the first false. *)
Theorem Range_stops (this : TCPServer R) (f : byte → R → bool) :
  let seen := Range this (recording f) [] in
  seen `prefix_of` map_to_list (node this)
  ∧ (∀ k v, (k, v) ∈ seen → GetNode this k = Some v)
  ∧ NoDup (fst <$> seen)
  ∧ (∀ i k v, seen !! i = Some (k, v) → (S i < length seen)%nat → f k v = true)
  ∧ (seen = map_to_list (node this) ∨ ∃ k v, last seen = Some (k, v) ∧ f k v = false).
Proof.
  unfold Range.
  destruct (rangeOver_recording f (map_to_list (node this)) [])
    as (seen & -> & Hpre & Hall & Hend).
  cbn [app]. split; [exact Hpre|]. split; [|split; [|split; [exact Hall|exact Hend]]].
  - intros k v Hin. apply elem_of_map_to_list.
    destruct Hpre as [tail ->]. apply elem_of_app. left. exact Hin.
  - destruct Hpre as [tail Htail].
    pose proof (NoDup_fst_map_to_list (node this)) as Hnd.
    rewrite Htail, fmap_app in Hnd. apply NoDup_app in Hnd. apply Hnd.
Qed.

Lemma DeleteNode_AddNode (this : TCPServer R) (id u : byte) (reg : R) :
  u ≠ id → AddNode (DeleteNode this id) u reg = DeleteNode (AddNode this u reg) id.
Proof.
  intros Hne. unfold AddNode, DeleteNode. cbn [node pool handler]. f_equal.
  symmetry. apply delete_insert_ne. congruence.
Qed.

(** X13.  After [DeleteNode] the id is not registered and a request for it
    is ignored, while a request for any other slave is dispatched exactly as
    before the deletion. *)
Theorem DeleteNode_ignored (this : TCPServer R) (id : byte) (h0 h1 h2 h3 h4 h5 fc : byte)
    (pdu : list byte) :
  GetNode (DeleteNode this id) id = None
  ∧ dispatch (DeleteNode this id) (h0 :: h1 :: h2 :: h3 :: h4 :: h5 :: id :: fc :: pdu)
    = (Ignored, DeleteNode this id, [])
  ∧ ∀ u d this1 calls,
      u ≠ id →
      dispatch this (h0 :: h1 :: h2 :: h3 :: h4 :: h5 :: u :: fc :: pdu) = (d, this1, calls) →
      dispatch (DeleteNode this id) (h0 :: h1 :: h2 :: h3 :: h4 :: h5 :: u :: fc :: pdu)
      = (d, DeleteNode this1 id, calls).
Proof.
  assert (Hgone : node (DeleteNode this id) !! id = None) by apply lookup_delete_eq.
  split; [exact Hgone|]. split.
  - rewrite (dispatch_frame _ _ _ _ _ _ _ _ _ _ _ eq_refl), Hgone. reflexivity.
  - intros u d this1 calls Hne.
    rewrite !(dispatch_frame _ _ _ _ _ _ _ _ _ _ _ eq_refl).
    change (handler (DeleteNode this id)) with (handler this).
    replace (node (DeleteNode this id) !! u) with (node this !! u)
      by (symmetry; apply lookup_delete_ne; congruence).
    destruct (node this !! u) as [reg|].
    2:{ intros [= <- <- <-]. reflexivity. }
    destruct (function (handler this) !! fc) as [handle|].
    + destruct (handle pdu reg) as [[[[rsp [[code|]|]]|] reg1] calls1];
        intros [= <- <- <-]; rewrite DeleteNode_AddNode by exact Hne; reflexivity.
    + intros [= <- <- <-]. rewrite DeleteNode_AddNode by exact Hne. reflexivity.
Qed.

(** X14.  When the handler of a dispatched request returns no error, the
    reply carries the request's function code unchanged, followed by the
    handler's response bytes; the register the handler left is stored under
    the slave id, other slaves are untouched, and the reply is what goes out
    on the connection. *)
Theorem handler_reply (this : TCPServer R) (h0 h1 h2 h3 h4 h5 u fc : byte) (pdu : list byte)
    (reg reg1 : R) (handle : FunctionHandler R) (rsp : option (list byte))
    (calls : list Call) :
  node this !! u = Some reg → function (handler this) !! fc = Some handle →
  handle pdu reg = (Some (rsp, None), reg1, calls) →
  let requestAdu := h0 :: h1 :: h2 :: h3 :: h4 :: h5 :: u :: fc :: pdu in
  let b := answer h0 h1 h2 h3 u fc (slice rsp) in
  dispatch this requestAdu = (Reply b, AddNode this u reg1, calls)
  ∧ b !! 7%nat = Some fc
  ∧ drop 8 b = slice rsp
  ∧ GetNode (AddNode this u reg1) u = Some reg1
  ∧ (∀ id, id ≠ u → GetNode (AddNode this u reg1) id = GetNode this id)
  ∧ ∀ (k : nat) (w : World R),
      srv w = this → txFault (conn w) = [] →
      frameHandler (S (S k)) w requestAdu
      = (Some None, {| srv := AddNode this u reg1; conn := wrote (conn w) b;
                       journal := journal w ++ calls |}).
Proof.
  intros Hnode Hfn Hrun requestAdu b.
  assert (Hd : dispatch this requestAdu = (Reply b, AddNode this u reg1, calls)).
  { unfold requestAdu. rewrite (dispatch_frame _ _ _ _ _ _ _ _ _ _ _ Hfn), Hnode, Hrun.
    reflexivity. }
  destruct (answer_fields h0 h1 h2 h3 u fc (slice rsp)) as (Hpdu & _ & _ & _ & Hfc).
  split; [exact Hd|]. split; [exact Hfc|]. split; [exact Hpdu|].
  split; [apply lookup_insert_eq|]. split.
  - intros id Hne. apply lookup_insert_ne. congruence.
  - intros k w Hsrv Htx. unfold frameHandler. rewrite Hsrv, Hd.
    rewrite (writeAll_all k (conn w) b Htx). reflexivity.
Qed.

(** X15.  A fault in a handler is contained: [frameHandler] returns nil and
    writes nothing, so the worker goes on; what the handler did to its
    register and the backend calls it made before the fault stay. *)
Theorem handler_fault_contained (this : TCPServer R) (h0 h1 h2 h3 h4 h5 u fc : byte)
    (pdu : list byte) (reg reg1 : R) (handle : FunctionHandler R) (calls : list Call) :
  node this !! u = Some reg → function (handler this) !! fc = Some handle →
  handle pdu reg = (None, reg1, calls) →
  let requestAdu := h0 :: h1 :: h2 :: h3 :: h4 :: h5 :: u :: fc :: pdu in
  dispatch this requestAdu = (Fault, AddNode this u reg1, calls)
  ∧ ∀ (k : nat) (w : World R),
      srv w = this →
      frameHandler k w requestAdu
      = (Some None, {| srv := AddNode this u reg1; conn := conn w;
                       journal := journal w ++ calls |}).
Proof.
  intros Hnode Hfn Hrun requestAdu.
  assert (Hd : dispatch this requestAdu = (Fault, AddNode this u reg1, calls)).
  { unfold requestAdu. rewrite (dispatch_frame _ _ _ _ _ _ _ _ _ _ _ Hfn), Hnode, Hrun.
    reflexivity. }
  split; [exact Hd|]. intros k w Hsrv. unfold frameHandler. rewrite Hsrv, Hd. reflexivity.
Qed.

(** X16.  [RegisterFunctionHandler] replaces the handler of its function
    code, a default one included, and leaves the other codes alone: a
    request with that code is answered from the new handler's result. *)
Theorem TCPServer_RegisterFunctionHandler_overrides (this : TCPServer R) (fc : byte) (fn : FunctionHandler R)
    (h0 h1 h2 h3 h4 h5 u : byte) (pdu : list byte) (reg : R) :
  node this !! u = Some reg →
  function (handler (TCPServer_RegisterFunctionHandler this fc fn)) !! fc = Some fn
  ∧ (∀ fc', fc' ≠ fc →
       function (handler (TCPServer_RegisterFunctionHandler this fc fn)) !! fc' = function (handler this) !! fc')
  ∧ fst (dispatch (TCPServer_RegisterFunctionHandler this fc fn) (h0 :: h1 :: h2 :: h3 :: h4 :: h5 :: u :: fc :: pdu))
    = (match fn pdu reg with
       | (Some (rsp, None), _, _) => Reply (answer h0 h1 h2 h3 u fc (slice rsp))
       | (Some (_, Some (ExceptionError code)), _, _) =>
           Reply (answer h0 h1 h2 h3 u (exceptionCode fc) [code])
       | _ => Fault
       end,
       AddNode (TCPServer_RegisterFunctionHandler this fc fn) u (snd (fst (fn pdu reg)))).
Proof.
  intros Hnode.
  assert (Hfn : function (handler (TCPServer_RegisterFunctionHandler this fc fn)) !! fc = Some fn)
    by apply lookup_insert_eq.
  split; [exact Hfn|]. split.
  - intros fc' Hne. apply lookup_insert_ne. congruence.
  - rewrite (dispatch_frame _ _ _ _ _ _ _ _ _ _ _ Hfn).
    change (node (TCPServer_RegisterFunctionHandler this fc fn)) with (node this). rewrite Hnode.
    destruct (fn pdu reg) as [[[[rsp [[code|]|]]|] reg1] calls]; reflexivity.
Qed.


Lemma frameHandler_served (k : nat) (w : World R) (requestAdu : list byte) :
  txFault (conn w) = [] → frameHandler (S (S k)) w requestAdu = (Some None, served w requestAdu).
Proof.
  intros Htx. unfold frameHandler, served.
  destruct (dispatch (srv w) requestAdu) as [[d this1] calls].
  destruct d as [| |b]; cbn [replyBytes]; rewrite ?wrote_nil; try reflexivity.
  rewrite (writeAll_all k (conn w) b Htx). reflexivity.
Qed.

Lemma dispatch_pool (this : TCPServer R) (requestAdu : list byte) :
  pool (snd (fst (dispatch this requestAdu))) = pool this.
Proof.
  destruct (decide (length requestAdu < 8)%nat) as [Hshort|Hlong].
  { rewrite dispatch_short by exact Hshort. reflexivity. }
  destruct requestAdu as [|h0 [|h1 [|h2 [|h3 [|h4 [|h5 [|u [|fc pdu]]]]]]]];
    simpl length in Hlong; try lia.
  rewrite (dispatch_frame _ _ _ _ _ _ _ _ _ _ _ eq_refl).
  destruct (node this !! u) as [reg|]; [|reflexivity].
  destruct (function (handler this) !! fc) as [handle|]; [|reflexivity].
  destruct (handle pdu reg) as [[[[rsp [[code|]|]]|] reg1] calls]; reflexivity.
Qed.

Lemma served_received (w : World R) (rest frame : list byte) :
  served (received w rest) frame = received (served w frame) rest.
Proof.
  unfold served, received. cbn [srv withConn].
  destruct (dispatch (srv w) frame) as [[d this1] calls]. reflexivity.
Qed.

Lemma foldl_served_received (frames : list (list byte)) (w : World R) (rest : list byte) :
  foldl served (received w rest) frames = received (foldl served w frames) rest.
Proof.
  revert w. induction frames as [|frame frames IH]; intros w; [reflexivity|].
  cbn [foldl]. rewrite served_received. apply IH.
Qed.

Lemma served_kept (w : World R) (frame : list byte) :
  pool (srv (served w frame)) = pool (srv w)
  ∧ txFault (conn (served w frame)) = txFault (conn w)
  ∧ rx (conn (served w frame)) = rx (conn w).
Proof.
  pose proof (dispatch_pool (srv w) frame) as Hpool. unfold served.
  destruct (dispatch (srv w) frame) as [[d this1] calls]. cbn in *. auto.
Qed.

Lemma foldl_served_tx (frames : list (list byte)) (w : World R) :
  tx (conn (foldl served w frames)) = tx (conn w) ++ concat (replies (srv w) frames).
Proof.
  revert w. induction frames as [|frame frames IH]; intros w.
  - cbn. rewrite app_nil_r. reflexivity.
  - cbn [foldl replies]. rewrite IH. unfold served.
    destruct (dispatch (srv w) frame) as [[d this1] calls]. cbn [conn srv tx wrote concat].
    rewrite <- app_assoc. reflexivity.
Qed.

(** X18.  Well-formed frames that arrive back to back are handled one at a
    time, in the order received, each on the server the previous one left:
    the worker ends up where it would be on the remaining bytes, and the
    bytes written are the replies in request order. *)
Theorem frames_served_in_order (k fuel : nat) (ctxDone : nat → bool)
    (frames : list (list byte)) (rest : list byte) (i : nat) (w : World R) :
  Forall wellFramed frames →
  pool (srv w) = tcpAduMaxSize → txFault (conn w) = [] →
  rx (conn w) = concat frames ++ rest →
  (∀ j, (i ≤ j < i + length frames)%nat → ctxDone j = false) →
  handlerModbus (S (S (S k))) (length frames + fuel) ctxDone i w
  = handlerModbus (S (S (S k))) fuel ctxDone (i + length frames)
      (received (foldl served w frames) rest)
  ∧ tx (conn (foldl served w frames)) = tx (conn w) ++ concat (replies (srv w) frames).
Proof.
  intros Hframes Hpool Htx Hrx Hctx. split; [|apply foldl_served_tx].
  revert i w Hpool Htx Hrx Hctx.
  induction Hframes as [|frame frames (hdr & body & -> & Hframed & Hlen) _ IH];
    intros i w Hpool Htx Hrx Hctx.
  - cbn [length foldl concat Nat.add]. rewrite Nat.add_0_r.
    f_equal. unfold received, withConn, pending. destruct w as [s [rx0 e t f] j].
    cbn in *. subst. reflexivity.
  - cbn [concat] in Hrx. rewrite <- !app_assoc in Hrx.
    destruct (served_kept w (hdr ++ body)) as (Hpool' & Htx' & _).
    cbn [length Nat.add].
    rewrite (handlerModbus_frame k _ ctxDone i w hdr body (concat frames ++ rest)
               Hframed Hlen Hpool Hrx (Hctx i ltac:(simpl length; lia))).
    rewrite frameHandler_served by exact Htx. cbn [afterServed].
    rewrite (IH (S i) (served (received w (concat frames ++ rest)) (hdr ++ body))).
    + cbn [foldl]. f_equal; [lia|].
      rewrite served_received, foldl_served_received.
      unfold received at 1 3. cbn [withConn conn srv journal pending]. reflexivity.
    + rewrite served_received. cbn [srv received withConn]. rewrite Hpool'. exact Hpool.
    + rewrite served_received. cbn [conn received withConn txFault pending].
      rewrite Htx'. exact Htx.
    + rewrite served_received. reflexivity.
    + intros j Hj. apply Hctx. simpl length. lia.
Qed.

(** X19.  A header with protocol id 0 that declares a length of 0 or 1 (no
    room for a function code) gets no reply and changes nothing: the worker
    goes on with the bytes after the header. *)
Theorem frame_without_function_code (k fuel : nat) (ctxDone : nat → bool) (i : nat)
    (w : World R) (hdr rest : list byte) (declared : Z) :
  length hdr = 7%nat →
  BigEndian.Uint16 (drop 2 hdr) = Some tcpProtocolIdentifier →
  BigEndian.Uint16 (drop 4 hdr) = Some declared → declared ≤ 1 →
  pool (srv w) = tcpAduMaxSize → rx (conn w) = hdr ++ rest → ctxDone i = false →
  handlerModbus (S (S (S k))) (S fuel) ctxDone i w
  = handlerModbus (S (S (S k))) fuel ctxDone (S i) (received w rest).
Proof.
  intros H7 Hpid Hdecl Hle Hpool Hrx Hctx.
  pose proof (Uint16_range _ _ Hdecl) as Hrange.
  destruct (Z.eq_dec declared 1) as [->|Hne].
  - assert (Hframed : framed hdr []) by (repeat split; assumption).
    assert (Hlen : len (hdr ++ []) ≤ tcpAduMaxSize).
    { rewrite app_nil_r. unfold len. rewrite H7. cbv. discriminate. }
    rewrite (handlerModbus_frame k fuel ctxDone i w hdr [] rest Hframed Hlen Hpool Hrx Hctx).
    unfold frameHandler. rewrite dispatch_short by (rewrite app_nil_r, H7; lia).
    cbn [afterServed]. f_equal. exact (world_eta (received w rest)).
  - assert (declared = 0) as -> by lia.
    cbn [handlerModbus]. rewrite Hctx, Hpool.
    change (tcpAduMaxSize <? tcpAduMaxSize) with false. cbv iota.
    rewrite (readFrame_header _ _ w hdr rest H7); [|rewrite Hpool; cbv; discriminate|exact Hrx].
    rewrite Hpid, Hdecl. reflexivity.
Qed.





(** X21.  No write error is retried: whatever error [conn.Write] returns,
    temporary or not, [frameHandler]'s write loop returns it after that one
    attempt, with only the accepted bytes written. *)
Theorem write_error_returned (fuel : nat) (c : Conn) (b : list byte) (n : Z) (e : ioerror)
    (script : list (option (Z * ioerror))) :
  txFault c = Some (n, e) :: script → 0 < len b →
  writeFatal e = true
  ∧ writeAll (S fuel) c b 0
    = (Some (Some e),
       {| rx := rx c; rxEnd := rxEnd c;
          tx := tx c ++ take (Z.to_nat (Z.min (Z.max n 0) (len b))) b;
          txFault := script |}).
Proof.
  intros Hscript Hpos.
  assert (Hfatal : writeFatal e = true).
  { destruct e as [| | |[] []|[]]; reflexivity. }
  split; [exact Hfatal|].
  rewrite writeAll_S.
  replace (len b >? 0) with true by (symmetry; rewrite Z.gtb_ltb; apply Z.ltb_lt; exact Hpos).
  change (Z.to_nat 0) with 0%nat. rewrite drop_0. unfold Write. rewrite Hscript, Hfatal.
  reflexivity.
Qed.
End MoreProperties.

(** * These properties on concrete requests *)

Lemma readBits_response_witness :
  readBits (hex [0; 0; 0; 8]) true node16
  = (Some (Some (hex [1; 0]), None), node16, [CallReadCoils 0 8]).
Proof.
  destruct (proj2 (readBits_response (hex [0; 0; 0; 8]) true node16) eq_refl)
    as (address & qty & Ha & Hq & _ & Hok).
  vm_compute in Ha, Hq. injection Ha as <-. injection Hq as <-.
  exact (proj1 (Hok ltac:(lia) (hex [0]) None node16 eq_refl)).
Defined.

Lemma readRegisters_error_witness :
  readRegisters (hex [0; 99; 0; 2]) true node16
  = (Some (None, Some (ExceptionError ExceptionCodeIllegalDataAddress)), node16,
     [CallReadHoldingsBytes 99 2]).
Proof.
  apply (readRegisters_error (hex [0; 99; 0; 2]) true node16 node16 99 2 []).
  - reflexivity.
  - reflexivity.
  - reflexivity.
  - lia.
  - reflexivity.
Defined.

Lemma funcWriteSingleCoil_writes_witness :
  funcWriteSingleCoil (hex [0; 3; 255; 0]) node16
  = (Some (Some (hex [0; 3; 255; 0]), None),
     snd (nodeWriteCoils 3 1 [Byte.x01] node16), [CallWriteCoils 3 1 [Byte.x01]]).
Proof.
  destruct (proj2 (funcWriteSingleCoil_writes (hex [0; 3; 255; 0]) node16) eq_refl)
    as (address & value & Ha & Hv & _ & Hok).
  vm_compute in Ha, Hv. injection Ha as <-. injection Hv as <-.
  exact (Hok ltac:(left; reflexivity) None _ eq_refl).
Defined.

Lemma funcWriteMultiCoils_writes_witness :
  funcWriteMultiCoils (hex [0; 0; 0; 8; 1]) node16
  = (Some (Some (hex [0; 0; 0; 8]), Some (ExceptionError ExceptionCodeIllegalDataAddress)),
     node16, [CallWriteCoils 0 8 []]).
Proof.
  apply (funcWriteMultiCoils_writes (hex [0; 0; 0; 8; 1]) node16 node16 0 8 (uint8 1)).
  - reflexivity.
  - reflexivity.
  - reflexivity.
  - lia.
  - reflexivity.
  - reflexivity.
Defined.

Lemma funcWriteSingleRegister_writes_witness :
  funcWriteSingleRegister (hex [0; 2; 1; 2]) node16
  = (Some (Some (hex [0; 2; 1; 2]), None),
     snd (nodeWriteHoldingsBytes 2 1 (hex [1; 2]) node16),
     [CallWriteHoldingsBytes 2 1 (hex [1; 2])]).
Proof.
  destruct (proj2 (funcWriteSingleRegister_writes (hex [0; 2; 1; 2]) node16) eq_refl)
    as (address & Ha & Hok).
  vm_compute in Ha. injection Ha as <-.
  exact (Hok None _ eq_refl).
Defined.

Lemma funcWriteMultiHoldingRegisters_writes_witness :
  funcWriteMultiHoldingRegisters (hex [0; 1; 0; 2; 4; 0; 10; 1; 2]) node16
  = (Some (Some (hex [0; 1; 0; 2]), None),
     snd (nodeWriteHoldingsBytes 1 2 (hex [0; 10; 1; 2]) node16),
     [CallWriteHoldingsBytes 1 2 (hex [0; 10; 1; 2])]).
Proof.
  apply (funcWriteMultiHoldingRegisters_writes (hex [0; 1; 0; 2; 4; 0; 10; 1; 2]) node16 _
           1 2 (uint8 4) None).
  - reflexivity.
  - reflexivity.
  - reflexivity.
  - lia.
  - reflexivity.
  - reflexivity.
Defined.

Lemma funcReadWriteMultiHoldingRegisters_refused_witness :
  funcReadWriteMultiHoldingRegisters (hex [0; 0; 0; 2; 0; 1; 0; 122; 244]) node16
  = refused node16.
Proof.
  apply (proj2 (funcReadWriteMultiHoldingRegisters_refused
                  (hex [0; 0; 0; 2; 0; 1; 0; 122; 244]) node16) 2 122 (uint8 244)).
  - reflexivity.
  - reflexivity.
  - reflexivity.
  - right. right. right. left. lia.
Defined.

Lemma funcMaskWriteRegisters_writes_witness :
  funcMaskWriteRegisters (hex [0; 0; 0; 0; 255; 255]) node16
  = (Some (Some (hex [0; 0; 0; 0; 255; 255]), None),
     snd (nodeMaskWriteHolding 0 0 65535 node16), [CallMaskWriteHolding 0 0 65535]).
Proof.
  destruct (proj2 (funcMaskWriteRegisters_writes (hex [0; 0; 0; 0; 255; 255]) node16) eq_refl)
    as (ref & andMask & orMask & Hr & Ha & Ho & Hok).
  vm_compute in Hr, Ha, Ho. injection Hr as <-. injection Ha as <-. injection Ho as <-.
  exact (Hok None _ eq_refl).
Defined.

Lemma DeleteNode_ignored_witness :
  dispatch (DeleteNode (AddNode server1 Byte.x02 node16) slave1) readRequest
  = (Ignored, DeleteNode (AddNode server1 Byte.x02 node16) slave1, []).
Proof.
  exact (proj1 (proj2 (DeleteNode_ignored (AddNode server1 Byte.x02 node16) slave1
                         Byte.x00 Byte.x01 Byte.x00 Byte.x00 Byte.x00 Byte.x06 Byte.x03
                         (hex [0; 0; 0; 2])))).
Defined.

Lemma handler_reply_witness :
  frameHandler 2 (world1 []) readRequest
  = (Some None,
     {| srv := AddNode server1 slave1 node16; conn := wrote (peer []) readResponse;
        journal := [CallReadHoldingsBytes 0 2] |}).
Proof.
  refine (proj2 (proj2 (proj2 (proj2 (proj2
            (handler_reply server1 Byte.x00 Byte.x01 Byte.x00 Byte.x00 Byte.x00 Byte.x06
               slave1 Byte.x03 (hex [0; 0; 0; 2]) node16 node16 funcReadHoldingRegisters
               (Some (hex [4; 0; 0; 0; 0])) [CallReadHoldingsBytes 0 2] _ _ _)))))
            0%nat (world1 []) _ _).
  - reflexivity.
  - reflexivity.
  - reflexivity.
  - reflexivity.
  - reflexivity.
Defined.

Lemma handler_fault_contained_witness :
  frameHandler 2 {| srv := server3; conn := peer []; journal := [] |}
    (hex [0; 1; 0; 0; 0; 2; 1; 66])
  = (Some None, {| srv := AddNode server3 slave1 node16; conn := peer []; journal := [] |}).
Proof.
  refine (proj2 (handler_fault_contained server3 Byte.x00 Byte.x01 Byte.x00 Byte.x00 Byte.x00
                   Byte.x02 slave1 Byte.x42 [] node16 node16 faulty [] _ _ _)
            2%nat {| srv := server3; conn := peer []; journal := [] |} _).
  - reflexivity.
  - reflexivity.
  - reflexivity.
  - reflexivity.
Defined.

Lemma TCPServer_RegisterFunctionHandler_overrides_witness :
  function (handler (TCPServer_RegisterFunctionHandler server1 FuncCodeReadCoils faulty))
    !! FuncCodeReadCoils = Some faulty.
Proof.
  exact (proj1 (TCPServer_RegisterFunctionHandler_overrides server1 FuncCodeReadCoils faulty
                  Byte.x00 Byte.x01 Byte.x00 Byte.x00 Byte.x00 Byte.x06 slave1
                  (hex [0; 0; 0; 8]) node16 eq_refl)).
Defined.

Lemma frames_served_in_order_witness :
  tx (conn (snd (handlerModbus 3 3 never 0 (world1 (writeRequest ++ readBack)))))
  = writeResponse ++ readBackResponse.
Proof.
  assert (Hframes : Forall wellFramed [writeRequest; readBack]).
  { repeat constructor.
    - exists (hex [0; 2; 0; 0; 0; 11; 1]), (hex [16; 0; 1; 0; 2; 4; 0; 10; 1; 2]).
      repeat split; try reflexivity. vm_compute. discriminate.
    - exists (hex [0; 3; 0; 0; 0; 6; 1]), (hex [3; 0; 0; 0; 4]).
      repeat split; try reflexivity. vm_compute. discriminate. }
  pose proof (proj1 (frames_served_in_order 0 1 never [writeRequest; readBack] [] 0
                       (world1 (writeRequest ++ readBack)) Hframes eq_refl eq_refl eq_refl
                       (fun _ _ => eq_refl))) as Hrun.
  cbn [length Nat.add] in Hrun. rewrite Hrun.
  vm_compute. reflexivity.
Defined.

Lemma frame_without_function_code_witness :
  handlerModbus 3 1 never 0 (world1 (hex [0; 1; 0; 0; 0; 0; 1] ++ readRequest))
  = handlerModbus 3 0 never 1
      (received (world1 (hex [0; 1; 0; 0; 0; 0; 1] ++ readRequest)) readRequest).
Proof.
  apply (frame_without_function_code 0 0 never 0 _ (hex [0; 1; 0; 0; 0; 0; 1]) readRequest 0).
  - reflexivity.
  - reflexivity.
  - reflexivity.
  - lia.
  - reflexivity.
  - reflexivity.
  - reflexivity.
Defined.


Lemma write_error_returned_witness :
  writeAll 1 {| rx := []; rxEnd := EOF; tx := []; txFault := [Some (4, ErrNet true false)] |}
    readResponse 0
  = (Some (Some (ErrNet true false)),
     {| rx := []; rxEnd := EOF; tx := hex [0; 1; 0; 0]; txFault := [] |}).
Proof.
  refine (proj2 (write_error_returned 0
                   {| rx := []; rxEnd := EOF; tx := [];
                      txFault := [Some (4, ErrNet true false)] |}
                   readResponse 4 (ErrNet true false) [] _ _)).
  - reflexivity.
  - reflexivity.
Defined.
